(** * Betters POS: the sale ledger and the receipt printer of [server.ts]

    A shallow embedding of the Express handlers of [src/server.ts]:
    the three SQLite tables, the prepared statements, the
    [db.transaction] wrapper of [POST /api/sales], the two sale queries
    and the ESC/POS directive sequence of [POST /api/print] and
    [POST /api/drawer].

    Conventions of the model.
    - A JavaScript number that holds a price or a total is an IEEE
      binary64 value ([float]); identifiers, quantities and stock counts
      are the integers of the INTEGER columns ([Z]).
    - A JavaScript string is the list of its UTF-16 code units.
    - A table is the list of its rows in rowid order, which is the order
      of a table scan; AUTOINCREMENT only ever appends.
    - What a handler reads from its environment (the clock, the outcome
      of opening the printer socket) is an explicit argument. *)

From Stdlib Require Import String Ascii OrderedTypeEx.
From Stdlib Require Import PrimFloat FloatOps SpecFloat.
From Stdlib Require Import ZArith List Lia Bool Sorted Permutation.
Import ListNotations.
Open Scope Z_scope.
Set Warnings "-inexact-float".

(** ** JavaScript strings *)

Module JS.

Definition char16 := N.
Definition jsstring := list char16.

(** An ASCII literal of the source as code units. *)
Definition lit (s : string) : jsstring :=
  map N_of_ascii (list_ascii_of_string s).

Definition zero_digit : char16 := 48%N.

(** [String.prototype.padStart(targetLength, padString)] for a one-unit
    pad string: the receiver is returned as it is when it is already
    long enough. *)
Definition padStart (target : nat) (pad : char16) (s : jsstring) : jsstring :=
  repeat pad (target - length s) ++ s.

(** [String.prototype.substring(start, end)]: both indices are clamped
    to [0, length] and swapped when they come in the wrong order. *)
Definition clamp (len i : Z) : Z := Z.max 0 (Z.min i len).

Definition substring (s : jsstring) (start stop : Z) : jsstring :=
  let len := Z.of_nat (length s) in
  let a := clamp len start in
  let b := clamp len stop in
  let from := Z.min a b in
  let to := Z.max a b in
  firstn (Z.to_nat (to - from)) (skipn (Z.to_nat from) s).

(** Decimal digits of a non-negative integer, most significant first.
    The fuel bounds the number of digits. *)
Fixpoint digits_aux (fuel : nat) (n : Z) (acc : jsstring) : jsstring :=
  let acc' := (zero_digit + Z.to_N (n mod 10))%N :: acc in
  match fuel with
  | O => acc'
  | S fuel' => if n <? 10 then acc' else digits_aux fuel' (n / 10) acc'
  end.

Definition digits (n : Z) : jsstring :=
  digits_aux (Z.to_nat (Z.log2 n)) n [].

(** [Number.prototype.toString()] of an integer. *)
Definition toString (n : Z) : jsstring :=
  if n <? 0 then lit "-" ++ digits (- n) else digits n.




End JS.

Import JS.

(** ** JavaScript numbers *)

Module Number.

(** The binary64 value of an integer of the request body. *)
Definition of_Z (n : Z) : float :=
  SF2Prim (binary_normalize prec emax n 0 false).

(** [fraction n] lays out the integer [n] of hundredths the way
    [toFixed(2)] does: at least three digits, a point before the last
    two. *)
Definition fraction (n : Z) : jsstring :=
  let m := padStart 3 zero_digit (digits n) in
  let k := List.length m in
  firstn (k - 2) m ++ lit "." ++ skipn (k - 2) m.

(** The integer [n] for which [n / 100 - m * 2^e] is closest to zero,
    the larger one on a tie. *)
Definition hundredths (m : positive) (e : Z) : Z :=
  if 0 <=? e then 100 * (Z.pos m * 2 ^ e)
  else (200 * Z.pos m + 2 ^ (- e)) / 2 ^ (1 - e).

Definition at_least_1e21 (m : positive) (e : Z) : bool :=
  (0 <=? e) && (10 ^ 21 <=? Z.pos m * 2 ^ e).

Section ToFixed.

(** [Number::toString] of the runtime. [toFixed] falls back on it for
    values that are not finite and for magnitudes of 1e21 and more. *)
Variable Number_toString : float -> jsstring.

(** [Number.prototype.toFixed(2)]. *)
Definition toFixed2 (x : float) : jsstring :=
  match Prim2SF x with
  | S754_nan | S754_infinity _ => Number_toString x
  | S754_zero _ => fraction 0
  | S754_finite s m e =>
      (if s then lit "-" else []) ++
      (if at_least_1e21 m e then Number_toString (PrimFloat.abs x)
       else fraction (hundredths m e))
  end.

End ToFixed.

End Number.

(** ** The store: three tables of [pos.db] *)

Module Db.

(** Rows, column for column as in the [CREATE TABLE] statements. *)
Record Product := mkProduct {
  p_id : Z;
  p_name : jsstring;
  p_price : float;
  p_stock : Z;
  p_barcode : option jsstring
}.

Record Sale := mkSale {
  s_id : Z;
  s_total : float;
  s_date : string   (* CURRENT_TIMESTAMP, the text 'YYYY-MM-DD HH:MM:SS' *)
}.

Record SaleDetail := mkSaleDetail {
  sd_id : Z;
  sd_sale_id : Z;
  sd_product_id : Z;
  sd_quantity : Z;
  sd_price : float
}.

(** The database file. [seq_*] is the [sqlite_sequence] entry of an
    AUTOINCREMENT table; [foreign_keys] is the connection's pragma,
    which decides whether the two [FOREIGN KEY] clauses of
    [sale_details] are enforced. *)
Record Store := mkStore {
  products : list Product;
  sales : list Sale;
  sale_details : list SaleDetail;
  seq_products : Z;
  seq_sales : Z;
  seq_sale_details : Z;
  foreign_keys : bool
}.

Inductive SqliteError :=
| SQLITE_CONSTRAINT_FOREIGNKEY.

(** A statement either completes on a new store or throws. A statement
    that throws leaves no change of its own, but the store it throws
    from carries what earlier statements of the same transaction did. *)
Inductive outcome (A : Type) :=
| Done (a : A) (st : Store)
| Throw (e : SqliteError) (st : Store).
Arguments Done {A} a st.
Arguments Throw {A} e st.

Definition Tx (A : Type) := Store -> outcome A.

Definition ret {A} (a : A) : Tx A := fun st => Done a st.

Definition bind {A B} (c : Tx A) (k : A -> Tx B) : Tx B :=
  fun st =>
    match c st with
    | Done a st' => k a st'
    | Throw e st' => Throw e st'
    end.

Notation "x <- c ;; k" := (bind c (fun x => k))
  (at level 61, c at next level, right associativity).
Notation "c ;;; k" := (bind c (fun _ => k))
  (at level 61, right associativity).

(** [for (const item of saleItems) { ... }] *)
Fixpoint for_of {A} (l : list A) (body : A -> Tx unit) : Tx unit :=
  match l with
  | [] => ret tt
  | x :: l' => body x ;;; for_of l' body
  end.

(** The rowid an AUTOINCREMENT table gives its next row: one more than
    the largest rowid the table has ever held. *)
Definition next_rowid (seq : Z) (ids : list Z) : Z :=
  fold_right Z.max seq ids + 1.

Definition has_product (st : Store) (pid : Z) : bool :=
  existsb (fun p => p_id p =? pid) (products st).

Definition has_sale (st : Store) (sid : Z) : bool :=
  existsb (fun s => s_id s =? sid) (sales st).

(** [INSERT INTO sales (total) VALUES (?)]; the result is
    [info.lastInsertRowid]. [now] is the value of CURRENT_TIMESTAMP. *)
Definition insertSale (now : string) (total : float) : Tx Z :=
  fun st =>
    let id := next_rowid (seq_sales st) (map s_id (sales st)) in
    Done id
      (mkStore (products st)
               (sales st ++ [mkSale id total now])
               (sale_details st)
               (seq_products st) id (seq_sale_details st)
               (foreign_keys st)).

(** [INSERT INTO sale_details (sale_id, product_id, quantity, price)
    VALUES (?, ?, ?, ?)] *)
Definition insertDetail (saleId pid quantity : Z) (price : float) : Tx unit :=
  fun st =>
    if foreign_keys st && negb (has_sale st saleId && has_product st pid)
    then Throw SQLITE_CONSTRAINT_FOREIGNKEY st
    else
      let id := next_rowid (seq_sale_details st) (map sd_id (sale_details st)) in
      Done tt
        (mkStore (products st)
                 (sales st)
                 (sale_details st ++ [mkSaleDetail id saleId pid quantity price])
                 (seq_products st) (seq_sales st) id
                 (foreign_keys st)).

Definition set_stock (p : Product) (stock : Z) : Product :=
  mkProduct (p_id p) (p_name p) (p_price p) stock (p_barcode p).

Definition decrement_stock (quantity pid : Z) (ps : list Product) : list Product :=
  map (fun p => if p_id p =? pid then set_stock p (p_stock p - quantity) else p) ps.

(** [UPDATE products SET stock = stock - ? WHERE id = ?] *)
Definition updateStock (quantity pid : Z) : Tx unit :=
  fun st =>
    Done tt
      (mkStore (decrement_stock quantity pid (products st))
               (sales st)
               (sale_details st)
               (seq_products st) (seq_sales st) (seq_sale_details st)
               (foreign_keys st)).

(** [db.transaction(fn)]: BEGIN, run [fn], then COMMIT; when [fn]
    throws, ROLLBACK to the store as it was at BEGIN and rethrow. *)
Definition transaction {A} (fn : Tx A) : Tx A :=
  fun st =>
    match fn st with
    | Done a st' => Done a st'
    | Throw e _ => Throw e st
    end.

(** [INSERT INTO products (name, price, stock, barcode) VALUES (?, ?, ?, ?)] *)
Definition insertProduct (name : jsstring) (price : float) (stock : Z)
    (barcode : jsstring) (st : Store) : Store :=
  let id := next_rowid (seq_products st) (map p_id (products st)) in
  mkStore (products st ++ [mkProduct id name price stock (Some barcode)])
          (sales st) (sale_details st)
          id (seq_sales st) (seq_sale_details st)
          (foreign_keys st).

(** The database right after the [CREATE TABLE IF NOT EXISTS] block on
    a fresh file. better-sqlite3 opens its connections with
    [foreign_keys] on. *)
Definition empty_db : Store := mkStore [] [] [] 0 0 0 true.

(** Seeding of the catalog (lines 46-55), only when it is empty. *)
Definition seed (st : Store) : Store :=
  if Z.of_nat (List.length (products st)) =? 0 then
    let st := insertProduct (lit "Impresora T" ++ [233%N] ++ lit "rmica 80mm")
                            120.5 50 (lit "8412345678901") st in
    let st := insertProduct (lit "Lector de C" ++ [243%N] ++ lit "digo de Barras")
                            45 100 (lit "8412345678902") st in
    let st := insertProduct (lit "Caj" ++ [243%N] ++ lit "n de Dinero RJ11")
                            60 30 (lit "8412345678903") st in
    let st := insertProduct (lit "Monitor T" ++ [225%N] ++ lit "ctil 15.6" ++ [92%N; 34%N])
                            250 20 (lit "8412345678904") st in
    let st := insertProduct (lit "Terminal POS All-in-One")
                            550 15 (lit "8412345678905") st in
    insertProduct (lit "Rollo Papel T" ++ [233%N] ++ lit "rmico 80mm")
                  2.5 500 (lit "8412345678906") st
  else st.

End Db.

Import Db.

(** ** The printer: directives of the escpos driver *)

Module Printer.

Inductive font := FontA.
Inductive alignment := CT | LT | RT.
Inductive style := Bold | Normal.
Inductive column_align := LEFT | RIGHT.

Record cell := mkCell {
  cell_text : jsstring;
  cell_align : column_align;
  cell_width : float
}.

(** One call on the [escpos.Printer] object. *)
Inductive directive :=
| Font (f : font)
| Align (a : alignment)
| Style (s : style)
| Size (w h : Z)
| Text (t : jsstring)
| TableCustom (row : list cell)
| Feed (n : Z)
| Cut
| Cashdraw (pin : Z)
| Close.

Definition rule : jsstring := lit "--------------------------------".

End Printer.

Import Printer.

(** ** The HTTP handlers *)

Module Api.

(** What the server owns: the database and the printer, the latter as
    the directives it has been sent so far. *)
Record World := mkWorld {
  db : Store;
  printed : list directive
}.

(** A cart item of the request body of [POST /api/sales], with the
    three fields the handler reads. *)
Record SaleItem := mkSaleItem {
  item_id : Z;
  item_quantity : Z;
  item_price : float
}.

Record SaleRequest := mkSaleRequest {
  req_total : float;
  req_items : list SaleItem
}.

(** A row of [GET /api/sales]. *)
Record SaleSummary := mkSaleSummary {
  sum_id : Z;
  sum_total : float;
  sum_date : string;
  sum_itemCount : Z
}.

(** A line item as [GET /api/sales/:id] returns it and as
    [POST /api/print] reads it. *)
Record LineItem := mkLineItem {
  li_name : jsstring;
  li_quantity : Z;
  li_price : float
}.

Record PrintRequest := mkPrintRequest {
  pr_saleId : Z;
  pr_total : float;
  pr_items : list LineItem
}.

Inductive body :=
| BProducts (l : list Product)
| BSaleCreated (saleId : Z)                       (* { success: true, saleId } *)
| BSales (l : list SaleSummary)
| BSaleDetail (sale : Sale) (items : list LineItem)  (* { ...sale, items } *)
| BMessage (message : jsstring)                   (* { success: true, message } *)
| BFailure (error : jsstring)                     (* { success: false, error } *)
| BError (error : jsstring).                      (* { error } *)

Record response := mkResponse {
  status : Z;
  payload : body
}.

Definition json (b : body) : response := mkResponse 200 b.

(** *** GET /api/products *)

Definition get_products (w : World) : response * World :=
  (json (BProducts (products (db w))), w).

(** *** POST /api/sales *)

(** The function handed to [db.transaction] (lines 74-83). *)
Definition sale_body (now : string) (saleTotal : float)
    (saleItems : list SaleItem) : Tx Z :=
  saleId <- insertSale now saleTotal ;;
  for_of saleItems (fun item =>
    insertDetail saleId (item_id item) (item_quantity item) (item_price item) ;;;
    updateStock (item_quantity item) (item_id item)) ;;;
  ret saleId.

Definition post_sales (now : string) (req : SaleRequest) (w : World)
    : response * World :=
  match transaction (sale_body now (req_total req) (req_items req)) (db w) with
  | Done saleId st => (json (BSaleCreated saleId), mkWorld st (printed w))
  | Throw _ st =>
      (mkResponse 500 (BFailure (lit "Failed to process sale")),
       mkWorld st (printed w))
  end.

(** *** GET /api/sales *)

(** [COUNT(sd.id)] over the rows that the LEFT JOIN pairs with sale
    [sid]. *)
Definition itemCount (st : Store) (sid : Z) : Z :=
  Z.of_nat (List.length (filter (fun sd => sd_sale_id sd =? sid) (sale_details st))).

(** [GROUP BY s.id]: [id] is the primary key of [sales], so a group is
    one row of [sales]; the groups come out in scan order. *)
Definition grouped (st : Store) : list SaleSummary :=
  map (fun s => mkSaleSummary (s_id s) (s_total s) (s_date s) (itemCount st (s_id s)))
      (sales st).

(** [ORDER BY s.date DESC]. The dates are TEXT and compare bytewise.
    SQLite's sorter keeps rows with equal keys in the order they reach
    it; here a row moves in front of exactly the rows whose date is
    strictly smaller. *)
Fixpoint insert_desc (x : SaleSummary) (l : list SaleSummary) : list SaleSummary :=
  match l with
  | [] => [x]
  | y :: l' =>
      if String.ltb (sum_date x) (sum_date y) then y :: insert_desc x l'
      else x :: l
  end.

Definition order_by_date_desc (l : list SaleSummary) : list SaleSummary :=
  fold_right insert_desc [] l.

Definition list_sales (st : Store) : list SaleSummary :=
  order_by_date_desc (grouped st).

Definition get_sales (w : World) : response * World :=
  (json (BSales (list_sales (db w))), w).

(** *** GET /api/sales/:id *)

(** [SELECT p.name, sd.quantity, sd.price FROM sale_details sd
    JOIN products p ON sd.product_id = p.id WHERE sd.sale_id = ?]:
    a scan of [sale_details], each row paired with the products of
    its [product_id]. *)
Definition sale_items (st : Store) (saleId : Z) : list LineItem :=
  flat_map
    (fun sd =>
       map (fun p => mkLineItem (p_name p) (sd_quantity sd) (sd_price sd))
           (filter (fun p => p_id p =? sd_product_id sd) (products st)))
    (filter (fun sd => sd_sale_id sd =? saleId) (sale_details st)).

Definition get_sale (saleId : Z) (w : World) : response * World :=
  match find (fun s => s_id s =? saleId) (sales (db w)) with
  | None => (mkResponse 404 (BError (lit "Sale not found")), w)
  | Some sale => (json (BSaleDetail sale (sale_items (db w) saleId)), w)
  end.

Section Print.

(** [Number::toString] of the runtime, see [Number.toFixed2]. *)
Variable Number_toString : float -> jsstring.

(** *** POST /api/print *)

(** Lines 150-171: the header of the ticket. [date_text] is
    [new Date().toLocaleString()]. *)
Definition receipt_header (saleId : Z) (date_text : jsstring) : list directive :=
  [ Font FontA;
    Align CT;
    Style Bold;
    Size 2 2;
    Text (lit "BETTERS FABRICA");
    Text (lit "DE TECNOLOGIA S.A.");
    Size 1 1;
    Style Normal;
    Text (lit "RUC: 20123456789");
    Text (lit "Av. Tecnol" ++ [243%N] ++ lit "gica 123, Lima");
    Text rule;
    Align LT;
    Text (lit "Ticket: #" ++ padStart 6 zero_digit (toString saleId));
    Text (lit "Fecha: " ++ date_text);
    Text rule;
    TableCustom [ mkCell (lit "Cant") LEFT 0.15;
                  mkCell (lit "Producto") LEFT 0.55;
                  mkCell (lit "Total") RIGHT 0.30 ] ].

(** Lines 173-180: one table row per item. *)
Definition receipt_row (item : LineItem) : directive :=
  TableCustom
    [ mkCell (toString (li_quantity item)) LEFT 0.15;
      mkCell (substring (li_name item) 0 15) LEFT 0.55;
      mkCell (lit "$" ++ Number.toFixed2 Number_toString
                           (PrimFloat.mul (li_price item)
                                          (Number.of_Z (li_quantity item))))
             RIGHT 0.30 ].

(** Lines 182-195: the total, the closing lines, feed, cut, close. *)
Definition receipt_footer (total : float) : list directive :=
  [ Text rule;
    Align RT;
    Size 1 1;
    Style Bold;
    Text (lit "TOTAL: $" ++ Number.toFixed2 Number_toString total);
    Style Normal;
    Align CT;
    Text rule;
    Text ([161%N] ++ lit "Gracias por su compra!");
    Text (lit "Vuelva pronto");
    Feed 3;
    Cut;
    Close ].

Definition receipt (date_text : jsstring) (req : PrintRequest) : list directive :=
  receipt_header (pr_saleId req) date_text
  ++ map receipt_row (pr_items req)
  ++ receipt_footer (pr_total req).

(** [open_error] is the argument [device.open] hands to its callback:
    [None] when the socket is connected. *)
Definition post_print (date_text : jsstring) (open_error : option jsstring)
    (req : PrintRequest) (w : World) : response * World :=
  match open_error with
  | Some _ =>
      (mkResponse 500 (BFailure (lit "Printer connection failed")), w)
  | None =>
      (json (BMessage (lit "Printed successfully")),
       mkWorld (db w) (printed w ++ receipt date_text req))
  end.

End Print.

(** *** POST /api/drawer *)

Definition post_drawer (open_error : option jsstring) (w : World)
    : response * World :=
  match open_error with
  | Some _ =>
      (mkResponse 500 (BFailure (lit "Printer connection failed")), w)
  | None =>
      (json (BMessage (lit "Drawer opened")),
       mkWorld (db w) (printed w ++ [Cashdraw 2; Close]))
  end.

End Api.

Import Api.

(** ** The client: the cart and the calls of [App.tsx] *)

Module Client.

(** [interface CartItem extends Product { quantity: number }] *)
Record CartItem := mkCartItem {
  c_id : Z;
  c_name : jsstring;
  c_price : float;
  c_stock : Z;
  c_barcode : option jsstring;
  c_quantity : Z
}.

(** [{ ...product, quantity }] *)
Definition of_product (product : Product) (quantity : Z) : CartItem :=
  mkCartItem (p_id product) (p_name product) (p_price product)
             (p_stock product) (p_barcode product) quantity.

(** [{ ...item, quantity }] *)
Definition with_quantity (item : CartItem) (quantity : Z) : CartItem :=
  mkCartItem (c_id item) (c_name item) (c_price item)
             (c_stock item) (c_barcode item) quantity.

(** [addToCart]: one more of a product that is in the cart, else a new
    last item of quantity 1. *)
Definition addToCart (product : Product) (prev : list CartItem) : list CartItem :=
  match find (fun item => c_id item =? p_id product) prev with
  | Some _ =>
      map (fun item => if c_id item =? p_id product
                       then with_quantity item (c_quantity item + 1)
                       else item)
          prev
  | None => prev ++ [of_product product 1]
  end.

Definition removeFromCart (productId : Z) (prev : list CartItem) : list CartItem :=
  filter (fun item => negb (c_id item =? productId)) prev.

(** [updateQuantity]: [Math.max(1, item.quantity + delta)] on the item
    of that product. *)
Definition updateQuantity (productId delta : Z) (prev : list CartItem) : list CartItem :=
  map (fun item => if c_id item =? productId
                   then with_quantity item (Z.max 1 (c_quantity item + delta))
                   else item)
      prev.

(** [clearCart]; [confirmed] is the answer of [window.confirm]. *)
Definition clearCart (confirmed : bool) (cart : list CartItem) : list CartItem :=
  if confirmed then [] else cart.

(** [cart.reduce((sum, item) => sum + (item.price * item.quantity), 0)] *)
Definition total (cart : list CartItem) : float :=
  fold_left (fun sum item =>
               PrimFloat.add sum (PrimFloat.mul (c_price item) (Number.of_Z (c_quantity item))))
            cart 0%float.


(** What the two POST handlers read of a cart item sent as JSON. *)
Definition sale_item (item : CartItem) : SaleItem :=
  mkSaleItem (c_id item) (c_quantity item) (c_price item).

Definition line_item (item : CartItem) : LineItem :=
  mkLineItem (c_name item) (c_quantity item) (c_price item).

(** The state of the component that the handlers below touch. *)
Record State := mkState {
  cl_products : list Product;
  cl_cart : list CartItem;
  cl_sales : list SaleSummary
}.

(** [fetchProducts] and [fetchSales], with the server answering. *)
Definition fetchProducts (c : State) (w : World) : State * World :=
  match get_products w with
  | (res, w') =>
      match payload res with
      | BProducts data => (mkState data (cl_cart c) (cl_sales c), w')
      | _ => (c, w')
      end
  end.

Definition fetchSales (c : State) (w : World) : State * World :=
  match get_sales w with
  | (res, w') =>
      match payload res with
      | BSales data => (mkState (cl_products c) (cl_cart c) data, w')
      | _ => (c, w')
      end
  end.

(** [res.ok] of a fetch response. *)
Definition ok (res : response) : bool :=
  (200 <=? status res) && (status res <=? 299).

(** [openDrawer] *)
Definition openDrawer (open_error : option jsstring) (w : World) : World :=
  snd (post_drawer open_error w).

Section Calls.

Variable Number_toString : float -> jsstring.

(** [handlePayment]: nothing on an empty cart; else the sale, and when
    it succeeded the receipt, the alert, an empty cart and the fresh
    product list. The result carries the text of the alert, if any. *)
Definition handlePayment (now : string) (date_text : jsstring)
    (open_error : option jsstring) (c : State) (w : World)
    : State * World * option jsstring :=
  if Z.of_nat (List.length (cl_cart c)) =? 0 then (c, w, None)
  else
    let total := total (cl_cart c) in
    match post_sales now (mkSaleRequest total (map sale_item (cl_cart c))) w with
    | (res, w1) =>
        match payload res with
        | BSaleCreated saleId =>
            let w2 := snd (post_print Number_toString date_text open_error
                             (mkPrintRequest saleId total (map line_item (cl_cart c)))
                             w1) in
            let (c', w3) := fetchProducts (mkState (cl_products c) [] (cl_sales c)) w2 in
            (c', w3,
             Some (lit "Venta completada con " ++ [233%N] ++ lit "xito. Ticket #"
                   ++ toString saleId))
        | _ => (c, w1, None)
        end
    end.

(** [handleReprint]: after the confirmation, the sale is fetched and
    what the server returned is sent to the printer. *)
Definition handleReprint (confirmed : bool) (date_text : jsstring)
    (open_error : option jsstring) (saleId : Z) (w : World)
    : World * option jsstring :=
  if negb confirmed then (w, None)
  else
    match get_sale saleId w with
    | (res, w1) =>
        if negb (ok res) then (w1, Some (lit "Error al reimprimir ticket"))
        else
          match payload res with
          | BSaleDetail sale items =>
              (snd (post_print Number_toString date_text open_error
                      (mkPrintRequest (s_id sale) (s_total sale) items) w1),
               Some (lit "Ticket #" ++ toString saleId ++ lit " enviado a imprimir"))
          | _ => (w1, Some (lit "Error al reimprimir ticket"))
          end
    end.

End Calls.

End Client.

Import Client.

(** * Vocabulary of the properties *)

(** The four columns of a [sale_details] row that the handler binds. *)
Definition line_of (sd : SaleDetail) : Z * Z * Z * float :=
  (sd_sale_id sd, sd_product_id sd, sd_quantity sd, sd_price sd).

Definition item_line (saleId : Z) (item : SaleItem) : Z * Z * Z * float :=
  (saleId, item_id item, item_quantity item, item_price item).

(** The stock updates of a cart, one after the other. *)
Definition decrement_all (items : list SaleItem) (ps : list Product) : list Product :=
  fold_left (fun ps item => decrement_stock (item_quantity item) (item_id item) ps)
            items ps.

(** The quantity of product [pid] in a cart, summed over its occurrences. *)
Definition sold (items : list SaleItem) (pid : Z) : Z :=
  fold_right (fun item acc => if item_id item =? pid then item_quantity item + acc else acc)
             0 items.

Definition in_catalog (st : Store) (items : list SaleItem) : Prop :=
  Forall (fun item => has_product st (item_id item) = true) items.

(** The effects of one committed sale on the three tables. *)
Definition sale_effects (now : string) (req : SaleRequest) (sid : Z)
    (st st' : Store) : Prop :=
  sales st' = sales st ++ [mkSale sid (req_total req) now] /\
  (exists rows, sale_details st' = sale_details st ++ rows /\
                map line_of rows = map (item_line sid) (req_items req)) /\
  products st' = decrement_all (req_items req) (products st).

(** The total of a list of (quantity, unit price) lines, as the client
    computes it: [reduce((sum, item) => sum + item.price * item.quantity, 0)]. *)
Definition sum_lines (l : list (Z * float)) : float :=
  fold_left (fun sum qp => PrimFloat.add sum (PrimFloat.mul (snd qp) (Number.of_Z (fst qp))))
            l 0%float.

Definition cart_lines (items : list SaleItem) : list (Z * float) :=
  map (fun item => (item_quantity item, item_price item)) items.

Definition detail_lines (items : list LineItem) : list (Z * float) :=
  map (fun item => (li_quantity item, li_price item)) items.

(** What the schema keeps true of every database the server can reach:
    [products.id] is a primary key, the rows of [sales] carry increasing
    rowids, and every line points to a sale header. *)
Definition wf_store (st : Store) : Prop :=
  NoDup (map p_id (products st)) /\
  StronglySorted Z.lt (map s_id (sales st)) /\
  Forall (fun sd => has_sale st (sd_sale_id sd) = true) (sale_details st).

(** The store without the lines whose product is not in the catalog. *)
Definition without_dangling (st : Store) : Store :=
  mkStore (products st) (sales st)
          (filter (fun sd => has_product st (sd_product_id sd)) (sale_details st))
          (seq_products st) (seq_sales st) (seq_sale_details st)
          (foreign_keys st).

Definition date_lt (a b : string) : Prop := String.compare a b = Lt.

(** [newer_first a b]: row [a] belongs before row [b], because its
    date is strictly later or, on equal dates, because it was inserted
    first (AUTOINCREMENT ids grow with insertion). *)
Definition newer_first (a b : SaleSummary) : Prop :=
  date_lt (sum_date b) (sum_date a) \/
  (sum_date a = sum_date b /\ sum_id a < sum_id b).

(** The integrity of a database the server has written: the schema
    invariants of [wf_store], increasing rowids in [sale_details], and,
    with foreign keys enforced, a product row behind every line. *)
Definition integrity (st : Store) : Prop :=
  wf_store st /\
  StronglySorted Z.lt (map sd_id (sale_details st)) /\
  (foreign_keys st = true ->
   Forall (fun sd => has_product st (sd_product_id sd) = true) (sale_details st)).

(** A run of the server over create-sale requests, each with the
    clock reading at its arrival. *)
Definition serve (reqs : list (string * SaleRequest)) (w : World) : World :=
  fold_left (fun w r => snd (post_sales (fst r) (snd r) w)) reqs w.

(** An item of the cart names no product of the catalog. *)
Definition unknown_product (st : Store) (items : list SaleItem) : Prop :=
  Exists (fun item => has_product st (item_id item) = false) items.

(** The sum of the [itemCount] column of a listing. *)
Definition count_lines (l : list SaleSummary) : Z :=
  fold_right (fun r acc => sum_itemCount r + acc) 0 l.

(** A cart as the client keeps it: one item per product, each of
    quantity at least 1. *)
Definition cart_ok (cart : list CartItem) : Prop :=
  NoDup (map c_id cart) /\ Forall (fun item => 1 <= c_quantity item) cart.

(** The cart was filled from the products of the store: every item
    carries the id and the name of a product row. *)
Definition from_catalog (st : Store) (cart : list CartItem) : Prop :=
  Forall (fun item => exists p, In p (products st) /\ p_id p = c_id item /\
                                p_name p = c_name item) cart.

(** The quantity of product [pid] over the lines of the ledger. *)
Definition ledger_quantity (lines : list SaleDetail) (pid : Z) : Z :=
  fold_right (fun sd acc => if sd_product_id sd =? pid then sd_quantity sd + acc else acc)
             0 lines.

(** The books of the store: every product row with, in place of its
    stock, the stock plus what the ledger says was sold of it. *)
Definition books (st : Store) : list Product :=
  map (fun p => set_stock p (p_stock p + ledger_quantity (sale_details st) (p_id p)))
      (products st).

(** * Sample stores and requests *)

(** A cart on the seeded catalog whose second item names no product:
    the body of the transaction throws at that item, after the header
    row, the first line and the first stock update. *)
Definition broken_cart : SaleRequest :=
  mkSaleRequest 8.5 [mkSaleItem 6 3 2.5; mkSaleItem 99 1 1].

(** Twenty-five terminals, with fifteen in stock, at a total of 1. *)
Definition oversold_cart : SaleRequest :=
  mkSaleRequest 1 [mkSaleItem 5 25 550].

Definition two_line_cart : SaleRequest :=
  mkSaleRequest 248.5 [mkSaleItem 1 2 120.5; mkSaleItem 6 3 2.5].

(** A database with foreign keys off, one sale of two lines, the second
    for a product that is not in the catalog; and the same database
    after the first product was renamed and repriced. *)
Definition dangling_db : Store :=
  mkStore [mkProduct 1 (lit "Cable") 4 10 None]
          [mkSale 1 9 "2024-05-01 10:00:00"]
          [mkSaleDetail 1 1 1 2 3.5; mkSaleDetail 2 1 42 1 2]
          1 1 2 false.

Definition renamed_db : Store :=
  mkStore [mkProduct 1 (lit "Cable USB") 5 10 None]
          (sales dangling_db) (sale_details dangling_db) 1 1 2 false.

(** Four sales, the second and the third within the same second. *)
Definition history_db : Store :=
  mkStore (products (seed empty_db))
          [ mkSale 1 10 "2024-05-01 10:00:00";
            mkSale 2 20 "2024-05-02 09:30:00";
            mkSale 3 30 "2024-05-02 09:30:00";
            mkSale 4 40 "2024-04-30 18:00:00" ]
          [ mkSaleDetail 1 1 6 4 2.5; mkSaleDetail 2 3 6 12 2.5 ]
          6 4 2 true.

(** The reprint of sale 42: two lines, the first with a long name. *)
Definition reprint_42 : PrintRequest :=
  mkPrintRequest 42 248.5
    [ mkLineItem (lit "Impresora T" ++ [233%N] ++ lit "rmica 80mm") 2 120.5;
      mkLineItem (lit "Rollo Papel") 3 2.5 ].

(** A cart of two products of the seeded catalog. *)
Definition seeded_cart : list CartItem :=
  [ mkCartItem 1 (lit "Impresora T" ++ [233%N] ++ lit "rmica 80mm") 120.5 50
               (Some (lit "8412345678901")) 2;
    mkCartItem 6 (lit "Rollo Papel T" ++ [233%N] ++ lit "rmico 80mm") 2.5 500
               (Some (lit "8412345678906")) 3 ].

(** The client with that cart in front of the seeded store. *)
Definition seeded_client : State := mkState (products (seed empty_db)) seeded_cart [].

(** * Properties *)

(** ** The sale transaction *)

Lemma has_product_decrement q pid ps x :
  existsb (fun p => p_id p =? x) (decrement_stock q pid ps)
  = existsb (fun p => p_id p =? x) ps.
Proof.
  induction ps as [|p ps IH]; simpl; [reflexivity|].
  rewrite IH. destruct (p_id p =? pid); reflexivity.
Qed.

Lemma existsb_app_r {A} (f : A -> bool) l x :
  existsb f l = true -> existsb f (l ++ [x]) = true.
Proof. intros H. rewrite existsb_app, H. reflexivity. Qed.

(** The loop over the cart, from a store in which the sale header
    exists: what it has done when it completes. *)
Lemma for_of_done saleId items : forall st st',
  for_of items (fun item =>
    insertDetail saleId (item_id item) (item_quantity item) (item_price item) ;;;
    updateStock (item_quantity item) (item_id item)) st = Done tt st' ->
  sales st' = sales st /\
  (exists rows, sale_details st' = sale_details st ++ rows /\
                map line_of rows = map (item_line saleId) items) /\
  products st' = decrement_all items (products st) /\
  seq_products st' = seq_products st /\
  seq_sales st' = seq_sales st /\
  foreign_keys st' = foreign_keys st.
Proof.
  induction items as [|item items IH]; intros st st' H.
  - inversion H; subst. repeat split; try reflexivity.
    exists []. rewrite app_nil_r. split; reflexivity.
  - simpl in H. unfold bind at 1 in H. unfold bind at 1 in H.
    unfold insertDetail at 1 in H.
    destruct (foreign_keys st && negb (has_sale st saleId && has_product st (item_id item)));
      [discriminate|].
    unfold updateStock at 1 in H. simpl in H.
    apply IH in H. simpl in H.
    destruct H as (Hs & (rows & Hd & Hl) & Hp & Hq & Hq' & Hf).
    repeat split; try assumption.
    eexists (_ :: rows). rewrite Hd, <- app_assoc. split; [reflexivity|].
    simpl. rewrite Hl. reflexivity.
Qed.

(** When it completes: always without foreign keys, and with them when
    every item names a product of the catalog. *)
Lemma for_of_succeeds saleId items : forall st,
  has_sale st saleId = true ->
  foreign_keys st = false \/ in_catalog st items ->
  exists st',
    for_of items (fun item =>
      insertDetail saleId (item_id item) (item_quantity item) (item_price item) ;;;
      updateStock (item_quantity item) (item_id item)) st = Done tt st'.
Proof.
  induction items as [|item items IH]; intros st Hsale Hok.
  - eexists. reflexivity.
  - simpl. unfold bind at 1. unfold bind at 1. unfold insertDetail at 1.
    assert (Hg : foreign_keys st && negb (has_sale st saleId && has_product st (item_id item)) = false).
    { destruct Hok as [Hoff|Hin]; [rewrite Hoff; reflexivity|].
      inversion Hin; subst. rewrite Hsale, H1. apply andb_false_r. }
    rewrite Hg. unfold updateStock at 1. simpl.
    apply IH.
    + exact Hsale.
    + destruct Hok as [Hoff|Hin]; [left; exact Hoff|right].
      inversion Hin; subst. unfold in_catalog, has_product in *. simpl.
      eapply Forall_impl; [|eassumption].
      intros a Ha. simpl in Ha. rewrite has_product_decrement. exact Ha.
Qed.

(** And when it throws: with foreign keys on, at the first item whose
    product is not in the catalog. *)
Lemma for_of_throws saleId items : forall st,
  foreign_keys st = true ->
  Exists (fun item => has_product st (item_id item) = false) items ->
  exists dirty,
    for_of items (fun item =>
      insertDetail saleId (item_id item) (item_quantity item) (item_price item) ;;;
      updateStock (item_quantity item) (item_id item)) st
    = Throw SQLITE_CONSTRAINT_FOREIGNKEY dirty.
Proof.
  induction items as [|item items IH]; intros st Hfk Hex; [inversion Hex|].
  simpl. unfold bind at 1. unfold bind at 1. unfold insertDetail at 1.
  rewrite Hfk.
  destruct (has_sale st saleId && has_product st (item_id item)) eqn:E; simpl.
  - unfold updateStock at 1. apply IH; [reflexivity|].
    inversion Hex as [? ? Hhead|? ? Htail]; subst.
    + apply andb_true_iff in E. destruct E as [_ E]. congruence.
    + eapply Exists_impl; [|exact Htail].
      intros a Ha. unfold has_product in *. simpl.
      rewrite has_product_decrement. exact Ha.
  - eexists. reflexivity.
Qed.

(** What a completed transaction body has done. *)
Lemma sale_body_done now total items st sid st' :
  sale_body now total items st = Done sid st' ->
  sid = next_rowid (seq_sales st) (map s_id (sales st)) /\
  sales st' = sales st ++ [mkSale sid total now] /\
  (exists rows, sale_details st' = sale_details st ++ rows /\
                map line_of rows = map (item_line sid) items) /\
  products st' = decrement_all items (products st) /\
  seq_products st' = seq_products st /\
  seq_sales st' = sid /\
  foreign_keys st' = foreign_keys st.
Proof.
  unfold sale_body. unfold bind at 1. unfold insertSale at 1.
  set (sid0 := next_rowid (seq_sales st) (map s_id (sales st))).
  unfold bind at 1.
  match goal with |- context [for_of ?l ?b ?s] => destruct (for_of l b s) as [[] st1|e st1] eqn:E end;
    [|discriminate].
  unfold ret. intros H. inversion H; subst sid st1. clear H.
  apply for_of_done in E. simpl in E.
  destruct E as (Hs & Hd & Hp & Hq & Hq' & Hf).
  repeat split; assumption.
Qed.

Lemma sale_body_succeeds now total items st :
  foreign_keys st = false \/ in_catalog st items ->
  exists sid st', sale_body now total items st = Done sid st'.
Proof.
  intros Hok. unfold sale_body. unfold bind at 1. unfold insertSale at 1.
  set (sid0 := next_rowid (seq_sales st) (map s_id (sales st))).
  match goal with |- context [bind (for_of ?l ?b) ?k ?s] =>
    destruct (for_of_succeeds sid0 items s) as [st' E] end.
  - unfold has_sale. simpl. rewrite existsb_app. simpl. rewrite Z.eqb_refl.
    apply orb_true_iff. right. reflexivity.
  - destruct Hok as [Hoff|Hin]; [left; exact Hoff|right; exact Hin].
  - exists sid0, st'. unfold bind at 1. rewrite E. reflexivity.
Qed.

Lemma decrement_all_sold items : forall ps,
  decrement_all items ps
  = map (fun p => set_stock p (p_stock p - sold items (p_id p))) ps.
Proof.
  induction items as [|item items IH]; intros ps.
  - simpl. rewrite <- (map_id ps) at 1. apply map_ext.
    intros [i n pr s b]. unfold set_stock. simpl. f_equal. lia.
  - unfold decrement_all in *. simpl. rewrite IH. unfold decrement_stock.
    rewrite map_map. apply map_ext. intros p.
    rewrite (Z.eqb_sym (item_id item)).
    destruct (p_id p =? item_id item); [|reflexivity].
    unfold set_stock. simpl. f_equal. lia.
Qed.



Lemma world_eta w : mkWorld (db w) (printed w) = w.
Proof. destruct w. reflexivity. Qed.

Example broken_cart_body_throws :
  exists dirty,
    sale_body "2024-05-01 10:00:00" 8.5 (req_items broken_cart) (seed empty_db)
    = Throw SQLITE_CONSTRAINT_FOREIGNKEY dirty /\
    List.length (sales dirty) = 1%nat /\
    List.length (sale_details dirty) = 1%nat /\
    map p_stock (products dirty) = [50; 100; 30; 20; 15; 497].
Proof. eexists. split; [vm_compute; reflexivity|]. repeat split. Qed.

Example broken_cart_rolled_back :
  post_sales "2024-05-01 10:00:00" broken_cart (mkWorld (seed empty_db) [])
  = (mkResponse 500 (BFailure (lit "Failed to process sale")),
     mkWorld (seed empty_db) []).
Proof. vm_compute. reflexivity. Qed.

(** The two ways a create-sale request ends, read off the body of the
    transaction. *)
Lemma post_sales_cases (now : string) (req : SaleRequest) (w : World) :
  match sale_body now (req_total req) (req_items req) (db w) with
  | Done sid st' =>
      post_sales now req w = (json (BSaleCreated sid), mkWorld st' (printed w)) /\
      sid = next_rowid (seq_sales (db w)) (map s_id (sales (db w))) /\
      sale_effects now req sid (db w) st'
  | Throw _ _ =>
      post_sales now req w
      = (mkResponse 500 (BFailure (lit "Failed to process sale")), w)
  end.
Proof.
  unfold post_sales, transaction.
  destruct (sale_body now (req_total req) (req_items req) (db w)) as [sid st'|e dirty] eqn:E.
  - split; [reflexivity|].
    apply sale_body_done in E.
    destruct E as (Hi & Hs & Hd & Hp & _).
    unfold sale_effects. auto.
  - rewrite world_eta. reflexivity.
Qed.




(** The scenario of the seeded catalog: three rolls of paper at 2.50. *)
Example paper_rolls_scenario :
  let w' := snd (post_sales "2024-05-01 10:00:00"
                            (mkSaleRequest 7.5 [mkSaleItem 6 3 2.5])
                            (mkWorld (seed empty_db) [])) in
  map p_stock (products (db w')) = [50; 100; 30; 20; 15; 497] /\
  sales (db w') = [mkSale 1 7.5 "2024-05-01 10:00:00"].
Proof. vm_compute. split; reflexivity. Qed.

(** A request completes when every item names a product of the catalog
    (or the foreign keys are not enforced), whatever its total and
    whatever the stock. *)
Lemma post_sales_succeeds (now : string) (req : SaleRequest) (w : World) :
  foreign_keys (db w) = false \/ in_catalog (db w) (req_items req) ->
  exists sid st',
    post_sales now req w = (json (BSaleCreated sid), mkWorld st' (printed w)) /\
    sid = next_rowid (seq_sales (db w)) (map s_id (sales (db w))) /\
    sale_effects now req sid (db w) st'.
Proof.
  intros Hok.
  destruct (sale_body_succeeds now (req_total req) (req_items req) (db w) Hok)
    as (sid & st' & E).
  pose proof (post_sales_cases now req w) as A. rewrite E in A.
  exists sid, st'. exact A.
Qed.

(** A request fails, and changes nothing, when the foreign keys are
    enforced and some item names a product that is not in the catalog. *)
Lemma post_sales_fails (now : string) (req : SaleRequest) (w : World) :
  foreign_keys (db w) = true ->
  Exists (fun item => has_product (db w) (item_id item) = false) (req_items req) ->
  post_sales now req w
  = (mkResponse 500 (BFailure (lit "Failed to process sale")), w).
Proof.
  intros Hfk Hex.
  pose proof (post_sales_cases now req w) as A.
  destruct (sale_body now (req_total req) (req_items req) (db w)) as [sid st'|e dirty] eqn:E;
    [|exact A].
  exfalso. revert E. unfold sale_body. unfold bind at 1. unfold insertSale at 1.
  match goal with |- context [bind (for_of ?l ?b) ?k ?s] =>
    destruct (for_of_throws (next_rowid (seq_sales (db w)) (map s_id (sales (db w))))
                            l s Hfk Hex) as [d T] end.
  unfold bind at 1. rewrite T. discriminate.
Qed.



Example oversold_stock_negative :
  map p_stock (products (db (snd (post_sales "2024-05-01 10:00:00" oversold_cart
                                             (mkWorld (seed empty_db) [])))))
  = [50; 100; 30; 20; -10; 500].
Proof. vm_compute. reflexivity. Qed.

(** ** Integrity of the store *)

Lemma next_rowid_above seq ids x : In x ids -> x < next_rowid seq ids.
Proof.
  unfold next_rowid. induction ids as [|y ids IH]; simpl; [tauto|].
  intros [->|H]; [lia|]. specialize (IH H). lia.
Qed.

Lemma decrement_all_ids items ps :
  map p_id (decrement_all items ps) = map p_id ps.
Proof.
  rewrite decrement_all_sold, map_map. reflexivity.
Qed.

Lemma StronglySorted_snoc l x :
  StronglySorted Z.lt l -> (forall y, In y l -> y < x) ->
  StronglySorted Z.lt (l ++ [x]).
Proof.
  induction l as [|a l IH]; intros Hs Hx; simpl.
  - repeat constructor.
  - inversion Hs; subst. constructor.
    + apply IH; [assumption|]. intros y Hy. apply Hx. right. exact Hy.
    + apply Forall_app. split; [assumption|].
      constructor; [|constructor]. apply Hx. left. reflexivity.
Qed.

Lemma rows_sale_id sid items : forall rows,
  map line_of rows = map (item_line sid) items ->
  Forall (fun sd => sd_sale_id sd = sid) rows.
Proof.
  induction items as [|item items IH]; intros [|r rows] H; simpl in H;
    try discriminate; constructor.
  - inversion H. reflexivity.
  - apply IH. inversion H. reflexivity.
Qed.

Lemma sale_effects_wf now req sid st st' :
  sid = next_rowid (seq_sales st) (map s_id (sales st)) ->
  sale_effects now req sid st st' -> wf_store st -> wf_store st'.
Proof.
  intros Hsid (Hs & (rows & Hd & Hl) & Hp) (Wp & Ws & Wd).
  unfold wf_store, has_sale. rewrite Hs, Hd, Hp, decrement_all_ids.
  split; [exact Wp|]. split.
  - rewrite map_app. simpl. apply StronglySorted_snoc; [exact Ws|].
    intros y Hy. subst sid. apply next_rowid_above. exact Hy.
  - apply Forall_app. split.
    + eapply Forall_impl; [|exact Wd]. intros sd Hsd. apply existsb_app_r. exact Hsd.
    + eapply Forall_impl; [|exact (rows_sale_id _ _ _ Hl)].
      intros sd Hsd. simpl in Hsd. rewrite Hsd, existsb_app. simpl.
      rewrite Z.eqb_refl. apply orb_true_iff. right. reflexivity.
Qed.

(** Every request to create a sale keeps the store well formed. *)
Lemma post_sales_wf now req w :
  wf_store (db w) -> wf_store (db (snd (post_sales now req w))).
Proof.
  intros W. pose proof (post_sales_cases now req w) as A.
  destruct (sale_body now (req_total req) (req_items req) (db w)).
  - destruct A as (A & Hsid & He). rewrite A. simpl.
    eapply sale_effects_wf; eassumption.
  - rewrite A. exact W.
Qed.

Lemma seed_wf : wf_store (seed empty_db).
Proof.
  unfold wf_store. simpl. split; [|split; constructor].
  repeat (constructor; [simpl; intuition discriminate|]). constructor.
Qed.

(** ** Reading a sale back *)

Lemma find_new_sale sid (l : list Sale) s :
  (forall x, In x (map s_id l) -> x < sid) -> s_id s = sid ->
  find (fun x => s_id x =? sid) (l ++ [s]) = Some s.
Proof.
  intros Hl Hs. induction l as [|a l IH]; simpl.
  - rewrite Hs, Z.eqb_refl. reflexivity.
  - destruct (s_id a =? sid) eqn:E.
    + apply Z.eqb_eq in E. specialize (Hl (s_id a) (or_introl eq_refl)). lia.
    + apply IH. intros x Hx. apply Hl. right. exact Hx.
Qed.

Lemma has_sale_In st x : has_sale st x = true -> In x (map s_id (sales st)).
Proof.
  unfold has_sale. intros H. apply existsb_exists in H.
  destruct H as (s & Hs & E). apply Z.eqb_eq in E. subst x.
  apply in_map. exact Hs.
Qed.

Lemma filter_none {A} (f : A -> bool) l :
  Forall (fun x => f x = false) l -> filter f l = [].
Proof.
  induction 1 as [|x l Hx _ IH]; simpl; [reflexivity|]. rewrite Hx. exact IH.
Qed.

Lemma filter_all {A} (f : A -> bool) l :
  Forall (fun x => f x = true) l -> filter f l = l.
Proof.
  induction 1 as [|x l Hx _ IH]; simpl; [reflexivity|]. rewrite Hx, IH. reflexivity.
Qed.

(** A primary key selects one row. *)
Lemma filter_key ps pid :
  NoDup (map p_id ps) -> existsb (fun p => p_id p =? pid) ps = true ->
  exists p, filter (fun p => p_id p =? pid) ps = [p].
Proof.
  induction ps as [|a ps IH]; simpl; intros Hn He; [discriminate|].
  inversion Hn; subst.
  destruct (p_id a =? pid) eqn:E.
  - exists a. f_equal. apply filter_none. apply Forall_forall.
    intros x Hx. apply Z.eqb_neq. intros Hxa. apply Z.eqb_eq in E.
    apply H1. rewrite E, <- Hxa. apply in_map. exact Hx.
  - simpl in He. apply IH; assumption.
Qed.

(** The join of freshly written lines with the catalog: one line item
    per row, carrying the row's quantity and price. *)
Lemma join_lines ps sid items : forall rows,
  NoDup (map p_id ps) ->
  Forall (fun item => existsb (fun p => p_id p =? item_id item) ps = true) items ->
  map line_of rows = map (item_line sid) items ->
  detail_lines
    (flat_map (fun sd =>
                 map (fun p => mkLineItem (p_name p) (sd_quantity sd) (sd_price sd))
                     (filter (fun p => p_id p =? sd_product_id sd) ps))
              rows)
  = cart_lines items.
Proof.
  induction items as [|item items IH]; intros [|r rows] Hn Hin H; simpl in H;
    try discriminate; [reflexivity|].
  inversion Hin as [|? ? Hitem Hitems]; subst.
  injection H as _ Epid Eq Eprice Htl.
  simpl. unfold detail_lines in *. rewrite map_app, (IH rows Hn Hitems Htl).
  destruct (filter_key ps (sd_product_id r) Hn) as (p & Hp).
  { rewrite Epid. exact Hitem. }
  rewrite Hp. simpl. rewrite Eq, Eprice. reflexivity.
Qed.

Lemma has_product_decrement_all items x : forall ps,
  existsb (fun p => p_id p =? x) (decrement_all items ps)
  = existsb (fun p => p_id p =? x) ps.
Proof.
  unfold decrement_all.
  induction items as [|item items IH]; intros ps; simpl; [reflexivity|].
  rewrite IH. apply has_product_decrement.
Qed.

(** The sale that a request has just created, read back. *)
Lemma read_back now req sid st st' pr :
  wf_store st -> in_catalog st (req_items req) ->
  sid = next_rowid (seq_sales st) (map s_id (sales st)) ->
  sale_effects now req sid st st' ->
  exists items,
    get_sale sid (mkWorld st' pr)
    = (json (BSaleDetail (mkSale sid (req_total req) now) items), mkWorld st' pr) /\
    detail_lines items = cart_lines (req_items req).
Proof.
  intros (Wp & Ws & Wd) Hin Hsid (Hs & (rows & Hd & Hl) & Hp).
  exists (sale_items st' sid). unfold get_sale. simpl. split.
  - rewrite Hs, find_new_sale; [reflexivity| |reflexivity].
    intros x Hx. subst sid. apply next_rowid_above. exact Hx.
  - unfold sale_items. rewrite Hd, filter_app.
    rewrite (filter_none _ (sale_details st)), (filter_all _ rows); simpl.
    + apply join_lines with (sid := sid); [| |exact Hl].
      * rewrite Hp, decrement_all_ids. exact Wp.
      * eapply Forall_impl; [|exact Hin]. intros item Hitem. simpl in Hitem.
        rewrite Hp, has_product_decrement_all. exact Hitem.
    + eapply Forall_impl; [|exact (rows_sale_id _ _ _ Hl)].
      intros sd Hsd. simpl in Hsd. apply Z.eqb_eq. exact Hsd.
    + eapply Forall_impl; [|exact Wd]. intros sd Hsd. simpl in Hsd.
      apply Z.eqb_neq. apply has_sale_In in Hsd.
      pose proof (next_rowid_above (seq_sales st) _ _ Hsd). lia.
Qed.

(** C2. For a cart over products of the catalog, create-sale succeeds
    and get-sale-detail on the id it returns yields the header with the
    supplied total and one line item per cart item, in cart order, with
    the cart's quantities and unit prices; the lines sum to the stored
    total exactly when the supplied total was the sum of the cart. *)
Theorem create_then_detail (now : string) (req : SaleRequest) (w : World) :
  wf_store (db w) ->
  in_catalog (db w) (req_items req) ->
  exists sid w' sale items,
    post_sales now req w = (json (BSaleCreated sid), w') /\
    get_sale sid w' = (json (BSaleDetail sale items), w') /\
    s_id sale = sid /\
    s_total sale = req_total req /\
    detail_lines items = cart_lines (req_items req) /\
    (sum_lines (detail_lines items) = s_total sale <->
     sum_lines (cart_lines (req_items req)) = req_total req).
Proof.
  intros W Hin.
  destruct (post_sales_succeeds now req w (or_intror Hin)) as (sid & st' & E & Hsid & He).
  destruct (read_back now req sid (db w) st' (printed w) W Hin Hsid He) as (items & G & L).
  exists sid, (mkWorld st' (printed w)), (mkSale sid (req_total req) now), items.
  simpl. rewrite L. repeat split; auto.
Qed.

Lemma create_then_detail_witness :
  wf_store (seed empty_db) /\
  in_catalog (seed empty_db) (req_items two_line_cart) /\
  exists sid w' sale items,
    post_sales "2024-05-01 10:00:00" two_line_cart (mkWorld (seed empty_db) [])
    = (json (BSaleCreated sid), w') /\
    get_sale sid w' = (json (BSaleDetail sale items), w') /\
    s_id sale = sid /\
    s_total sale = 248.5%float /\
    detail_lines items = [(2, 120.5%float); (3, 2.5%float)] /\
    (sum_lines (detail_lines items) = s_total sale <->
     sum_lines [(2, 120.5%float); (3, 2.5%float)] = 248.5%float).
Proof.
  assert (H : in_catalog (seed empty_db) (req_items two_line_cart)).
  { repeat constructor. }
  split; [exact seed_wf|]. split; [exact H|].
  exact (create_then_detail "2024-05-01 10:00:00" two_line_cart
           (mkWorld (seed empty_db) []) seed_wf H).
Defined.

Example two_line_cart_detail :
  get_sale 1 (snd (post_sales "2024-05-01 10:00:00" two_line_cart
                              (mkWorld (seed empty_db) [])))
  = (json (BSaleDetail
             (mkSale 1 248.5 "2024-05-01 10:00:00")
             [ mkLineItem (lit "Impresora T" ++ [233%N] ++ lit "rmica 80mm") 2 120.5;
               mkLineItem (lit "Rollo Papel T" ++ [233%N] ++ lit "rmico 80mm") 3 2.5 ]),
     snd (post_sales "2024-05-01 10:00:00" two_line_cart
                     (mkWorld (seed empty_db) []))).
Proof. vm_compute. reflexivity. Qed.

Example two_line_cart_total_consistent :
  sum_lines (cart_lines (req_items two_line_cart)) = req_total two_line_cart.
Proof. vm_compute. reflexivity. Qed.

(** C8. A create-sale request with no items succeeds: the store gains
    one sale header, whose total is the total of the request body, no
    line and no stock change; read back, the sale has zero line items. *)
Theorem empty_cart_sale (now : string) (total : float) (w : World) :
  wf_store (db w) ->
  exists sid w',
    post_sales now (mkSaleRequest total []) w = (json (BSaleCreated sid), w') /\
    sales (db w') = sales (db w) ++ [mkSale sid total now] /\
    sale_details (db w') = sale_details (db w) /\
    products (db w') = products (db w) /\
    get_sale sid w' = (json (BSaleDetail (mkSale sid total now) []), w').
Proof.
  intros W. set (req := mkSaleRequest total []).
  assert (Hin : in_catalog (db w) (req_items req)) by constructor.
  destruct (post_sales_succeeds now req w (or_intror Hin)) as (sid & st' & E & Hsid & He).
  destruct (read_back now req sid (db w) st' (printed w) W Hin Hsid He) as (items & G & L).
  destruct items; [|discriminate].
  destruct He as (Hs & (rows & Hd & Hl) & Hp).
  destruct rows; [|discriminate]. rewrite app_nil_r in Hd.
  exists sid, (mkWorld st' (printed w)). simpl. auto.
Qed.

Lemma empty_cart_sale_witness :
  wf_store (seed empty_db) /\
  exists sid w',
    post_sales "2024-05-01 10:00:00" (mkSaleRequest 99.99 [])
               (mkWorld (seed empty_db) [])
    = (json (BSaleCreated sid), w') /\
    sales (db w') = sales (seed empty_db) ++ [mkSale sid 99.99 "2024-05-01 10:00:00"] /\
    sale_details (db w') = sale_details (seed empty_db) /\
    products (db w') = products (seed empty_db) /\
    get_sale sid w'
    = (json (BSaleDetail (mkSale sid 99.99 "2024-05-01 10:00:00") []), w').
Proof.
  split; [exact seed_wf|].
  exact (empty_cart_sale "2024-05-01 10:00:00" 99.99 (mkWorld (seed empty_db) []) seed_wf).
Defined.

(** C6. Get-sale-detail on an id that no stored sale has answers 404
    "Sale not found" and leaves the world as it was: the database is
    unchanged and the printer receives no directive. *)
Theorem sale_not_found (saleId : Z) (w : World) :
  (forall s, In s (sales (db w)) -> s_id s <> saleId) ->
  get_sale saleId w = (mkResponse 404 (BError (lit "Sale not found")), w) /\
  db (snd (get_sale saleId w)) = db w /\
  printed (snd (get_sale saleId w)) = printed w.
Proof.
  intros H. unfold get_sale.
  destruct (find (fun s => s_id s =? saleId) (sales (db w))) as [s|] eqn:E.
  - apply find_some in E. destruct E as [Hin E]. apply Z.eqb_eq in E.
    exfalso. exact (H s Hin E).
  - repeat split.
Qed.

Lemma sale_not_found_witness :
  (forall s, In s (sales (seed empty_db)) -> s_id s <> 7) /\
  get_sale 7 (mkWorld (seed empty_db) [])
  = (mkResponse 404 (BError (lit "Sale not found")), mkWorld (seed empty_db) []) /\
  db (snd (get_sale 7 (mkWorld (seed empty_db) []))) = seed empty_db /\
  printed (snd (get_sale 7 (mkWorld (seed empty_db) []))) = [].
Proof.
  assert (H : forall s, In s (sales (seed empty_db)) -> s_id s <> 7).
  { intros s Hs. destruct Hs. }
  split; [exact H|].
  exact (sale_not_found 7 (mkWorld (seed empty_db) []) H).
Defined.

(** ** The join of get-sale-detail *)

Lemma flat_map_filter {A B} (f : A -> list B) (g : A -> bool) l :
  (forall x, g x = false -> f x = []) ->
  flat_map f (filter g l) = flat_map f l.
Proof.
  intros H. induction l as [|x l IH]; simpl; [reflexivity|].
  destruct (g x) eqn:E; simpl; rewrite IH; [reflexivity|].
  rewrite (H x E). reflexivity.
Qed.

Lemma filter_comm {A} (f g : A -> bool) l :
  filter f (filter g l) = filter g (filter f l).
Proof.
  induction l as [|x l IH]; simpl; [reflexivity|].
  destruct (f x) eqn:Ef, (g x) eqn:Eg; simpl; rewrite ?Ef, ?Eg, IH; reflexivity.
Qed.

Lemma existsb_false_filter {A} (f : A -> bool) l :
  existsb f l = false -> filter f l = [].
Proof.
  induction l as [|x l IH]; simpl; [reflexivity|].
  destruct (f x); simpl; [discriminate|exact IH].
Qed.

Lemma sale_items_In st saleId item :
  In item (sale_items st saleId) <->
  exists sd p,
    In sd (sale_details st) /\ sd_sale_id sd = saleId /\
    In p (products st) /\ p_id p = sd_product_id sd /\
    item = mkLineItem (p_name p) (sd_quantity sd) (sd_price sd).
Proof.
  unfold sale_items. rewrite in_flat_map. split.
  - intros (sd & Hsd & Hit). apply filter_In in Hsd. destruct Hsd as [Hsd E].
    apply in_map_iff in Hit. destruct Hit as (p & Hp & Hpin).
    apply filter_In in Hpin. destruct Hpin as [Hpin E'].
    exists sd, p. apply Z.eqb_eq in E, E'. auto.
  - intros (sd & p & Hsd & E & Hp & E' & ->).
    exists sd. split.
    + apply filter_In. split; [exact Hsd|]. apply Z.eqb_eq. exact E.
    + apply in_map_iff. exists p. split; [reflexivity|].
      apply filter_In. split; [exact Hp|]. apply Z.eqb_eq. exact E'.
Qed.

Lemma sale_items_without_dangling st saleId :
  sale_items (without_dangling st) saleId = sale_items st saleId.
Proof.
  unfold sale_items, without_dangling. simpl.
  rewrite filter_comm. apply flat_map_filter.
  intros sd H. unfold has_product in H.
  rewrite (existsb_false_filter _ _ H). reflexivity.
Qed.

(** C10. For a stored sale, get-sale-detail answers with the header and
    the inner join of the sale's lines with the products table as it is
    now: an item is returned exactly for a line of the sale paired with
    a current product row of the line's product id; it carries that
    row's name and the line's own quantity and price. A line whose
    product id matches no product row yields no item, and the answer is
    the same as if that line were not stored. *)
Theorem sale_detail_joins_products (saleId : Z) (sale : Sale) (w : World) :
  find (fun s => s_id s =? saleId) (sales (db w)) = Some sale ->
  exists items,
    get_sale saleId w = (json (BSaleDetail sale items), w) /\
    (forall item,
       In item items <->
       exists sd p,
         In sd (sale_details (db w)) /\ sd_sale_id sd = saleId /\
         In p (products (db w)) /\ p_id p = sd_product_id sd /\
         item = mkLineItem (p_name p) (sd_quantity sd) (sd_price sd)) /\
    fst (get_sale saleId (mkWorld (without_dangling (db w)) (printed w)))
    = json (BSaleDetail sale items).
Proof.
  intros H. exists (sale_items (db w) saleId).
  unfold get_sale. simpl. rewrite H. split; [reflexivity|]. split.
  - intros item. apply sale_items_In.
  - simpl. rewrite sale_items_without_dangling. reflexivity.
Qed.

Lemma sale_detail_joins_products_witness :
  find (fun s => s_id s =? 1) (sales dangling_db)
  = Some (mkSale 1 9 "2024-05-01 10:00:00") /\
  exists items,
    get_sale 1 (mkWorld dangling_db [])
    = (json (BSaleDetail (mkSale 1 9 "2024-05-01 10:00:00") items),
       mkWorld dangling_db []) /\
    (forall item,
       In item items <->
       exists sd p,
         In sd (sale_details dangling_db) /\ sd_sale_id sd = 1 /\
         In p (products dangling_db) /\ p_id p = sd_product_id sd /\
         item = mkLineItem (p_name p) (sd_quantity sd) (sd_price sd)) /\
    fst (get_sale 1 (mkWorld (without_dangling dangling_db) []))
    = json (BSaleDetail (mkSale 1 9 "2024-05-01 10:00:00") items).
Proof.
  split; [reflexivity|].
  exact (sale_detail_joins_products 1 (mkSale 1 9 "2024-05-01 10:00:00")
           (mkWorld dangling_db []) eq_refl).
Defined.

Example dangling_line_omitted :
  fst (get_sale 1 (mkWorld dangling_db []))
  = json (BSaleDetail (mkSale 1 9 "2024-05-01 10:00:00")
                      [mkLineItem (lit "Cable") 2 3.5]).
Proof. vm_compute. reflexivity. Qed.

Example renamed_product_shows :
  fst (get_sale 1 (mkWorld renamed_db []))
  = json (BSaleDetail (mkSale 1 9 "2024-05-01 10:00:00")
                      [mkLineItem (lit "Cable USB") 2 3.5]).
Proof. vm_compute. reflexivity. Qed.

(** ** The order of list-sales *)

Lemma date_lt_trans a b c : date_lt a b -> date_lt b c -> date_lt a c.
Proof.
  unfold date_lt. intros H1 H2.
  apply String_as_OT.cmp_lt in H1, H2. apply String_as_OT.cmp_lt.
  eapply String_as_OT.lt_trans; eassumption.
Qed.

(** A date that is not before [y], against a date at most [y]. *)
Lemma date_not_lt x y z :
  String.ltb x y = false -> date_lt z y \/ z = y -> date_lt z x \/ z = x.
Proof.
  unfold String.ltb, date_lt. intros Hxy Hzy.
  destruct (String.compare x y) eqn:E; [|discriminate|].
  - apply String.compare_eq_iff in E. subst y. exact Hzy.
  - assert (Hyx : String.compare y x = Lt).
    { rewrite String.compare_antisym, E. reflexivity. }
    left. destruct Hzy as [Hzy| ->]; [|exact Hyx].
    exact (date_lt_trans _ _ _ Hzy Hyx).
Qed.

Lemma insert_desc_perm x l : Permutation (x :: l) (insert_desc x l).
Proof.
  induction l as [|y l IH]; simpl; [reflexivity|].
  destruct (String.ltb (sum_date x) (sum_date y)); [|reflexivity].
  rewrite perm_swap. constructor. exact IH.
Qed.

Lemma order_by_date_desc_perm l : Permutation l (order_by_date_desc l).
Proof.
  induction l as [|x l IH]; simpl; [constructor|].
  rewrite <- insert_desc_perm. constructor. exact IH.
Qed.

Lemma insert_desc_sorted x l :
  StronglySorted newer_first l ->
  Forall (fun y => sum_id x < sum_id y) l ->
  StronglySorted newer_first (insert_desc x l).
Proof.
  induction l as [|y l IH]; intros Hs Hx; simpl.
  - repeat constructor.
  - inversion Hs as [|? ? Hs' Hy]; subst. inversion Hx as [|? ? Hxy Hx']; subst.
    destruct (String.ltb (sum_date x) (sum_date y)) eqn:E.
    + constructor; [apply IH; assumption|].
      eapply Permutation_Forall; [apply insert_desc_perm|].
      constructor; [|exact Hy].
      left. unfold String.ltb in E. unfold date_lt.
      destruct (String.compare (sum_date x) (sum_date y)); [discriminate|reflexivity|discriminate].
    + constructor; [exact Hs|].
      assert (Hle : Forall (fun z => date_lt (sum_date z) (sum_date y) \/ sum_date z = sum_date y)
                           (y :: l)).
      { constructor; [right; reflexivity|].
        eapply Forall_impl; [|exact Hy]. intros z [Hz|[Hz _]]; [left; exact Hz|right; auto]. }
      apply Forall_forall. intros z Hz.
      pose proof (proj1 (Forall_forall _ _) Hle z Hz) as Hzy.
      pose proof (proj1 (Forall_forall _ _) Hx z Hz) as Hid.
      destruct (date_not_lt _ _ _ E Hzy) as [Hlt|Heq].
      * left. exact Hlt.
      * right. split; [symmetry; exact Heq|exact Hid].
Qed.

Lemma order_by_date_desc_sorted l :
  StronglySorted (fun a b => sum_id a < sum_id b) l ->
  StronglySorted newer_first (order_by_date_desc l).
Proof.
  induction l as [|x l IH]; intros Hs; simpl; [constructor|].
  inversion Hs as [|? ? Hs' Hx]; subst.
  apply insert_desc_sorted; [apply IH; exact Hs'|].
  eapply Permutation_Forall; [apply order_by_date_desc_perm|exact Hx].
Qed.

Lemma grouped_ids_sorted st :
  StronglySorted Z.lt (map s_id (sales st)) ->
  StronglySorted (fun a b => sum_id a < sum_id b) (grouped st).
Proof.
  unfold grouped. induction (sales st) as [|s l IH]; simpl; intros H; [constructor|].
  inversion H as [|? ? Hs Hx]; subst. constructor; [apply IH; exact Hs|].
  rewrite Forall_map in Hx |- *. exact Hx.
Qed.

(** C4. List-sales returns every sale once, with its count of lines,
    ordered by descending timestamp, and sales with equal timestamps in
    their insertion order: of any two rows of the answer, the earlier
    one has the strictly later date or, on equal dates, the smaller
    (earlier inserted) id. *)
Theorem list_sales_ordered (st : Store) :
  wf_store st ->
  StronglySorted newer_first (list_sales st) /\
  Permutation (grouped st) (list_sales st).
Proof.
  intros (_ & Ws & _). unfold list_sales. split.
  - apply order_by_date_desc_sorted, grouped_ids_sorted, Ws.
  - apply order_by_date_desc_perm.
Qed.

Lemma history_db_wf : wf_store history_db.
Proof.
  unfold wf_store. simpl. split; [|split].
  - repeat (constructor; [simpl; intuition discriminate|]). constructor.
  - repeat constructor.
  - repeat constructor.
Qed.

Lemma list_sales_ordered_witness :
  wf_store history_db /\
  StronglySorted newer_first (list_sales history_db) /\
  Permutation (grouped history_db) (list_sales history_db).
Proof.
  split; [exact history_db_wf|].
  exact (list_sales_ordered history_db history_db_wf).
Defined.

Example history_listing :
  list_sales history_db
  = [ mkSaleSummary 2 20 "2024-05-02 09:30:00" 0;
      mkSaleSummary 3 30 "2024-05-02 09:30:00" 1;
      mkSaleSummary 1 10 "2024-05-01 10:00:00" 1;
      mkSaleSummary 4 40 "2024-04-30 18:00:00" 0 ].
Proof. vm_compute. reflexivity. Qed.

(** ** The strings of the receipt *)


Lemma substring_prefix s (n : nat) :
  substring s 0 (Z.of_nat n) = firstn n s.
Proof.
  unfold substring, clamp.
  rewrite (Z.min_l 0) by lia. rewrite (Z.max_l 0 0) by lia.
  rewrite (Z.min_l 0) by lia. rewrite Z.sub_0_r. simpl skipn.
  destruct (Nat.le_gt_cases n (List.length s)) as [H|H].
  - rewrite Z.min_l by lia. rewrite !Z.max_r by lia. rewrite Nat2Z.id. reflexivity.
  - rewrite Z.min_r by lia. rewrite !Z.max_r by lia. rewrite Nat2Z.id.
    rewrite !firstn_all2 by lia. reflexivity.
Qed.










(** ** The printer handlers *)

(** C7. When opening the printer connection fails, print-receipt and
    open-drawer answer 500 "Printer connection failed" and the world is
    untouched: not one directive reaches the printer. The directives
    (the whole receipt, or the drawer pulse) are sent only in the branch
    of a successful open. *)
Theorem printer_open_failure (Number_toString : float -> jsstring)
    (date_text error : jsstring) (req : PrintRequest) (w : World) :
  post_print Number_toString date_text (Some error) req w
  = (mkResponse 500 (BFailure (lit "Printer connection failed")), w) /\
  post_drawer (Some error) w
  = (mkResponse 500 (BFailure (lit "Printer connection failed")), w) /\
  printed (snd (post_print Number_toString date_text (Some error) req w)) = printed w /\
  printed (snd (post_drawer (Some error) w)) = printed w /\
  printed (snd (post_print Number_toString date_text None req w))
  = printed w ++ receipt Number_toString date_text req /\
  printed (snd (post_drawer None w)) = printed w ++ [Cashdraw 2; Close].
Proof. repeat split. Qed.


Lemma receipt_item_row N date_text req (i : nat) item :
  nth_error (pr_items req) i = Some item ->
  nth_error (receipt N date_text req) (16 + i) = Some (receipt_row N item).
Proof.
  intros H. unfold receipt.
  change (nth_error (map (receipt_row N) (pr_items req) ++ receipt_footer N (pr_total req)) i
          = Some (receipt_row N item)).
  rewrite nth_error_app1.
  - apply map_nth_error. exact H.
  - rewrite length_map. apply nth_error_Some. rewrite H. discriminate.
Qed.



Example reprint_42_ticket :
  nth_error (receipt (fun _ => lit "NaN") (lit "1/5/2024, 10:00:00") reprint_42) 12
  = Some (Text (lit "Ticket: #000042")).
Proof. vm_compute. reflexivity. Qed.

Example reprint_42_first_row :
  nth_error (receipt (fun _ => lit "NaN") (lit "1/5/2024, 10:00:00") reprint_42) 16
  = Some (TableCustom
            [ mkCell (lit "2") LEFT 0.15;
              mkCell (lit "Impresora T" ++ [233%N] ++ lit "rmi") LEFT 0.55;
              mkCell (lit "$241.00") RIGHT 0.30 ]).
Proof. vm_compute. reflexivity. Qed.

Example toFixed2_samples :
  Number.toFixed2 (fun _ => lit "NaN") 7.5 = lit "7.50" /\
  Number.toFixed2 (fun _ => lit "NaN") 0.125 = lit "0.13" /\
  Number.toFixed2 (fun _ => lit "NaN") 1.005 = lit "1.00" /\
  Number.toFixed2 (fun _ => lit "NaN") (-2.345) = lit "-2.35" /\
  Number.toFixed2 (fun _ => lit "NaN") 0 = lit "0.00".
Proof. vm_compute. repeat split. Qed.

(** * Further properties of the server *)

(** ** When a sale fails *)


Lemma unknown_not_in_catalog st items :
  unknown_product st items -> ~ in_catalog st items.
Proof.
  unfold in_catalog, unknown_product. intros Hex Hall.
  apply Exists_exists in Hex. destruct Hex as (item & Hin & Hno).
  rewrite Forall_forall in Hall. rewrite (Hall item Hin) in Hno. discriminate.
Qed.


(** ** Sale ids *)

Lemma next_rowid_seq seq ids : seq < next_rowid seq ids.
Proof.
  unfold next_rowid. induction ids as [|y ids IH]; simpl; lia.
Qed.

Lemma next_rowid_snoc seq ids x :
  (forall y, In y ids -> y < x) -> seq <= x ->
  next_rowid x (ids ++ [x]) = x + 1.
Proof.
  intros H _. unfold next_rowid. f_equal.
  induction ids as [|y ids IH]; simpl; [lia|].
  rewrite IH.
  - specialize (H y (or_introl eq_refl)). lia.
  - intros z Hz. apply H. right. exact Hz.
Qed.

(** X2. The id of a committed sale is larger than the id of every sale
    stored before and than the sequence counter, which it becomes; the
    request that follows, when it is committed, gets the id one
    higher. *)
Theorem sale_ids_fresh_and_consecutive (now now' : string) (req req' : SaleRequest)
    (w w' w'' : World) (sid sid' : Z) :
  post_sales now req w = (json (BSaleCreated sid), w') ->
  (forall s, In s (sales (db w)) -> s_id s < sid) /\
  seq_sales (db w) < sid /\
  seq_sales (db w') = sid /\
  (post_sales now' req' w' = (json (BSaleCreated sid'), w'') -> sid' = sid + 1).
Proof.
  intros H.
  pose proof (post_sales_cases now req w) as A.
  destruct (sale_body now (req_total req) (req_items req) (db w)) as [sid0 st'|e dirty] eqn:E;
    [|rewrite A in H; discriminate].
  destruct A as (A & Hsid & Hs & _). rewrite A in H.
  injection H as Es Ew. rewrite Es in *. rewrite <- Ew in *. clear Es Ew.
  apply sale_body_done in E. destruct E as (_ & _ & _ & _ & _ & Hseq & _).
  assert (Hold : forall y, In y (map s_id (sales (db w))) -> y < sid).
  { intros y Hy. rewrite Hsid. apply next_rowid_above. exact Hy. }
  split; [intros s Hin; apply Hold, in_map, Hin|].
  split; [rewrite Hsid; apply next_rowid_seq|].
  split; [exact Hseq|].
  intros H'.
  pose proof (post_sales_cases now' req' (mkWorld st' (printed w))) as A'.
  destruct (sale_body now' (req_total req') (req_items req') (db (mkWorld st' (printed w))));
    [|rewrite A' in H'; discriminate].
  destruct A' as (A' & Hsid' & _). rewrite A' in H'.
  injection H' as Es _. rewrite <- Es, Hsid'.
  simpl. rewrite Hseq, Hs, map_app. simpl.
  apply (next_rowid_snoc (seq_sales (db w))); [exact Hold|].
  pose proof (next_rowid_seq (seq_sales (db w)) (map s_id (sales (db w)))). lia.
Qed.

Lemma sale_ids_fresh_and_consecutive_witness :
  post_sales "2024-05-01 10:00:00" two_line_cart (mkWorld history_db [])
  = (json (BSaleCreated 5),
     snd (post_sales "2024-05-01 10:00:00" two_line_cart (mkWorld history_db []))) /\
  (forall s, In s (sales history_db) -> s_id s < 5) /\
  seq_sales history_db < 5 /\
  seq_sales (db (snd (post_sales "2024-05-01 10:00:00" two_line_cart
                                 (mkWorld history_db [])))) = 5 /\
  (post_sales "2024-05-01 10:00:09" oversold_cart
              (snd (post_sales "2024-05-01 10:00:00" two_line_cart (mkWorld history_db [])))
   = (json (BSaleCreated 6),
      snd (post_sales "2024-05-01 10:00:09" oversold_cart
             (snd (post_sales "2024-05-01 10:00:00" two_line_cart (mkWorld history_db []))))) ->
   6 = 5 + 1).
Proof.
  split; [vm_compute; reflexivity|].
  apply (sale_ids_fresh_and_consecutive
           "2024-05-01 10:00:00" "2024-05-01 10:00:09" two_line_cart oversold_cart
           (mkWorld history_db [])).
  vm_compute. reflexivity.
Defined.

(** ** Integrity of every database the server writes *)

Lemma for_of_integrity saleId items : forall st st',
  for_of items (fun item =>
    insertDetail saleId (item_id item) (item_quantity item) (item_price item) ;;;
    updateStock (item_quantity item) (item_id item)) st = Done tt st' ->
  (StronglySorted Z.lt (map sd_id (sale_details st)) ->
   StronglySorted Z.lt (map sd_id (sale_details st'))) /\
  (foreign_keys st = true ->
   Forall (fun sd => has_product st (sd_product_id sd) = true) (sale_details st) ->
   Forall (fun sd => has_product st' (sd_product_id sd) = true) (sale_details st')).
Proof.
  induction items as [|item items IH]; intros st st' H.
  - inversion H; subst. split; auto.
  - simpl in H. unfold bind at 1 in H. unfold bind at 1 in H.
    unfold insertDetail at 1 in H.
    destruct (foreign_keys st && negb (has_sale st saleId && has_product st (item_id item)))
      eqn:G; [discriminate|].
    unfold updateStock at 1 in H. simpl in H.
    apply IH in H. simpl in H. destruct H as [Hids Hfk]. split.
    + intros Hs. apply Hids. rewrite map_app. simpl.
      apply StronglySorted_snoc; [exact Hs|].
      intros y Hy. apply next_rowid_above. exact Hy.
    + intros Hon Hall. apply Hfk; [exact Hon|].
      rewrite Hon in G. simpl in G. apply negb_false_iff, andb_true_iff in G.
      destruct G as [_ G].
      apply Forall_app. split.
      * eapply Forall_impl; [|exact Hall]. intros sd Hsd. simpl in Hsd.
        unfold has_product in *. simpl. rewrite has_product_decrement. exact Hsd.
      * constructor; [|constructor]. unfold has_product in *. simpl.
        rewrite has_product_decrement. exact G.
Qed.

Lemma sale_body_integrity now total items st sid st' :
  sale_body now total items st = Done sid st' ->
  (StronglySorted Z.lt (map sd_id (sale_details st)) ->
   StronglySorted Z.lt (map sd_id (sale_details st'))) /\
  (foreign_keys st = true ->
   Forall (fun sd => has_product st (sd_product_id sd) = true) (sale_details st) ->
   Forall (fun sd => has_product st' (sd_product_id sd) = true) (sale_details st')).
Proof.
  unfold sale_body. unfold bind at 1. unfold insertSale at 1. unfold bind at 1.
  match goal with |- context [for_of ?l ?b ?s] =>
    destruct (for_of l b s) as [[] st1|e st1] eqn:F end; [|discriminate].
  unfold ret. intros E. inversion E; subst. clear E.
  apply for_of_integrity in F. simpl in F. exact F.
Qed.

Lemma post_sales_integrity now req w :
  integrity (db w) -> integrity (db (snd (post_sales now req w))).
Proof.
  intros (W & Hids & Hfk).
  split; [apply post_sales_wf; exact W|].
  unfold post_sales, transaction.
  destruct (sale_body now (req_total req) (req_items req) (db w)) as [sid st'|e dirty] eqn:E;
    simpl; [|split; assumption].
  destruct (sale_body_integrity _ _ _ _ _ _ E) as [F1 F2].
  apply sale_body_done in E. destruct E as (_ & _ & _ & _ & _ & _ & Hf).
  split; [apply F1; exact Hids|].
  intros Hon. rewrite Hf in Hon. apply F2; [exact Hon|apply Hfk; exact Hon].
Qed.

Lemma seed_integrity : integrity (seed empty_db).
Proof.
  split; [exact seed_wf|]. split; [constructor|]. intros _. constructor.
Qed.

(** X3. Every database the server reaches from the seeded one by
    create-sale requests, committed or failed, keeps its integrity:
    product ids are unique, sale and line rowids increase, every line
    belongs to a stored sale and, the foreign keys being on, to a
    product of the catalog. *)
Theorem served_db_integrity (reqs : list (string * SaleRequest)) (log : list directive) :
  integrity (db (serve reqs (mkWorld (seed empty_db) log))) /\
  foreign_keys (db (serve reqs (mkWorld (seed empty_db) log))) = true.
Proof.
  unfold serve.
  assert (G : forall w, integrity (db w) /\ foreign_keys (db w) = true ->
                        integrity (db (fold_left (fun w r => snd (post_sales (fst r) (snd r) w)) reqs w)) /\
                        foreign_keys (db (fold_left (fun w r => snd (post_sales (fst r) (snd r) w)) reqs w)) = true).
  { induction reqs as [|r reqs IH]; intros w Hw; [exact Hw|].
    simpl. apply IH. destruct Hw as [Hi Hf]. split.
    - apply post_sales_integrity. exact Hi.
    - pose proof (post_sales_cases (fst r) (snd r) w) as A.
      destruct (sale_body (fst r) (req_total (snd r)) (req_items (snd r)) (db w)) eqn:E.
      + destruct A as (A & _). rewrite A. simpl.
        apply sale_body_done in E. destruct E as (_ & _ & _ & _ & _ & _ & Hk).
        rewrite Hk. exact Hf.
      + rewrite A. exact Hf. }
  apply G. split; [exact seed_integrity|reflexivity].
Qed.

(** ** What a new sale leaves alone *)

Lemma find_snoc_other {A} (f : A -> bool) l x :
  f x = false -> find f (l ++ [x]) = find f l.
Proof.
  intros H. induction l as [|a l IH]; simpl; [rewrite H; reflexivity|].
  destruct (f a); [reflexivity|exact IH].
Qed.

Lemma join_decrement_all items (sd : SaleDetail) ps :
  map (fun p => mkLineItem (p_name p) (sd_quantity sd) (sd_price sd))
      (filter (fun p => p_id p =? sd_product_id sd) (decrement_all items ps))
  = map (fun p => mkLineItem (p_name p) (sd_quantity sd) (sd_price sd))
        (filter (fun p => p_id p =? sd_product_id sd) ps).
Proof.
  rewrite decrement_all_sold.
  induction ps as [|p ps IH]; simpl; [reflexivity|].
  destruct (p_id p =? sd_product_id sd); simpl; rewrite IH; reflexivity.
Qed.

Lemma sale_items_decrement_all items st st' saleId :
  sale_details st' = sale_details st ->
  products st' = decrement_all items (products st) ->
  sale_items st' saleId = sale_items st saleId.
Proof.
  intros Hd Hp. unfold sale_items. rewrite Hd, Hp.
  apply flat_map_ext. intros sd. apply join_decrement_all.
Qed.

Lemma sale_items_other_rows st rows saleId :
  Forall (fun sd => sd_sale_id sd <> saleId) rows ->
  sale_items (mkStore (products st) (sales st) (sale_details st ++ rows)
                      (seq_products st) (seq_sales st) (seq_sale_details st)
                      (foreign_keys st)) saleId
  = sale_items st saleId.
Proof.
  intros H. unfold sale_items. simpl. rewrite filter_app.
  rewrite (filter_none _ rows), app_nil_r; [reflexivity|].
  eapply Forall_impl; [|exact H]. intros sd Hsd. apply Z.eqb_neq. exact Hsd.
Qed.

Lemma sale_effects_other_items now req sid st st' saleId :
  sale_effects now req sid st st' -> saleId <> sid ->
  sale_items st' saleId = sale_items st saleId.
Proof.
  intros (_ & (rows & Hd & Hl) & Hp) Hne.
  transitivity (sale_items (mkStore (products st) (sales st) (sale_details st ++ rows)
                                    (seq_products st) (seq_sales st) (seq_sale_details st)
                                    (foreign_keys st)) saleId).
  - apply (sale_items_decrement_all (req_items req)); simpl; assumption.
  - apply sale_items_other_rows.
    eapply Forall_impl; [|exact (rows_sale_id _ _ _ Hl)].
    intros sd Hsd. simpl in Hsd. congruence.
Qed.

(** X4. A stored sale does not change when another sale is created:
    for every id but the new one, get-sale-detail answers after the
    request what it answered before, header and line items alike. *)
Theorem past_sales_unchanged (now : string) (req : SaleRequest) (w w' : World)
    (sid saleId : Z) :
  post_sales now req w = (json (BSaleCreated sid), w') ->
  saleId <> sid ->
  fst (get_sale saleId w') = fst (get_sale saleId w).
Proof.
  intros H Hne.
  pose proof (post_sales_cases now req w) as A.
  destruct (sale_body now (req_total req) (req_items req) (db w)) as [sid0 st'|e dirty];
    [|rewrite A in H; discriminate].
  destruct A as (A & _ & He). rewrite A in H.
  injection H as Es Ew. rewrite Es in *. rewrite <- Ew. clear Es Ew.
  unfold get_sale. simpl.
  rewrite (sale_effects_other_items _ _ _ _ _ _ He Hne).
  destruct He as (Hs & _). rewrite Hs, find_snoc_other.
  - destruct (find (fun s => s_id s =? saleId) (sales (db w))); reflexivity.
  - simpl. apply Z.eqb_neq. congruence.
Qed.

Lemma past_sales_unchanged_witness :
  post_sales "2024-05-03 08:00:00" two_line_cart (mkWorld history_db [])
  = (json (BSaleCreated 5),
     snd (post_sales "2024-05-03 08:00:00" two_line_cart (mkWorld history_db []))) /\
  3 <> 5 /\
  fst (get_sale 3 (snd (post_sales "2024-05-03 08:00:00" two_line_cart
                                   (mkWorld history_db []))))
  = fst (get_sale 3 (mkWorld history_db [])).
Proof.
  split; [vm_compute; reflexivity|]. split; [discriminate|].
  apply (past_sales_unchanged "2024-05-03 08:00:00" two_line_cart
           (mkWorld history_db []) _ 5 3); [vm_compute; reflexivity|discriminate].
Defined.

(** ** The history after a sale *)

Lemma itemCount_app st rows sid :
  Z.of_nat (List.length (filter (fun sd => sd_sale_id sd =? sid) (sale_details st ++ rows)))
  = itemCount st sid
    + Z.of_nat (List.length (filter (fun sd => sd_sale_id sd =? sid) rows)).
Proof.
  unfold itemCount. rewrite filter_app, length_app. lia.
Qed.

Lemma grouped_after_sale now req sid st st' :
  wf_store st ->
  sid = next_rowid (seq_sales st) (map s_id (sales st)) ->
  sale_effects now req sid st st' ->
  grouped st'
  = grouped st ++ [mkSaleSummary sid (req_total req) now
                                 (Z.of_nat (List.length (req_items req)))].
Proof.
  intros (_ & _ & Wd) Hsid (Hs & (rows & Hd & Hl) & _).
  pose proof (rows_sale_id _ _ _ Hl) as Hrows.
  assert (Hlen : List.length rows = List.length (req_items req)).
  { rewrite <- (length_map line_of), Hl, length_map. reflexivity. }
  unfold grouped. rewrite Hs, map_app. simpl. f_equal.
  - apply map_ext_in. intros s Hin. f_equal.
    unfold itemCount at 1. rewrite Hd, itemCount_app.
    rewrite (filter_none _ rows); [simpl; lia|].
    eapply Forall_impl; [|exact Hrows]. intros sd Hsd. simpl in Hsd.
    apply Z.eqb_neq. rewrite Hsd.
    pose proof (next_rowid_above (seq_sales st) _ _ (in_map s_id _ _ Hin)). lia.
  - f_equal. f_equal. unfold itemCount. rewrite Hd, filter_app.
    rewrite (filter_none _ (sale_details st)), (filter_all _ rows); [simpl; lia| |].
    + eapply Forall_impl; [|exact Hrows]. intros sd Hsd. simpl in Hsd.
      apply Z.eqb_eq. exact Hsd.
    + eapply Forall_impl; [|exact Wd]. intros sd Hsd. simpl in Hsd.
      apply Z.eqb_neq. apply has_sale_In in Hsd.
      pose proof (next_rowid_above (seq_sales st) _ _ Hsd). lia.
Qed.

(** X5. After a committed sale, list-sales is the listing from before
    with one more row: the new id, the supplied total, the time of the
    insert and, as item count, the number of items of the cart. The
    rows of the older sales keep their counts. *)
Theorem history_after_sale (now : string) (req : SaleRequest) (w w' : World) (sid : Z) :
  wf_store (db w) ->
  post_sales now req w = (json (BSaleCreated sid), w') ->
  Permutation
    (mkSaleSummary sid (req_total req) now (Z.of_nat (List.length (req_items req)))
     :: list_sales (db w))
    (list_sales (db w')).
Proof.
  intros W H.
  pose proof (post_sales_cases now req w) as A.
  destruct (sale_body now (req_total req) (req_items req) (db w)) as [sid0 st'|e dirty];
    [|rewrite A in H; discriminate].
  destruct A as (A & Hsid & He). rewrite A in H.
  injection H as Es Ew. rewrite Es in *. rewrite <- Ew. clear Es Ew. simpl.
  unfold list_sales. rewrite (grouped_after_sale _ _ _ _ _ W Hsid He).
  rewrite <- order_by_date_desc_perm, <- order_by_date_desc_perm.
  rewrite Permutation_app_comm. reflexivity.
Qed.

Lemma history_after_sale_witness :
  wf_store history_db /\
  post_sales "2024-05-03 08:00:00" two_line_cart (mkWorld history_db [])
  = (json (BSaleCreated 5),
     snd (post_sales "2024-05-03 08:00:00" two_line_cart (mkWorld history_db []))) /\
  Permutation
    (mkSaleSummary 5 (req_total two_line_cart) "2024-05-03 08:00:00"
                   (Z.of_nat (List.length (req_items two_line_cart)))
     :: list_sales history_db)
    (list_sales (db (snd (post_sales "2024-05-03 08:00:00" two_line_cart
                                     (mkWorld history_db []))))).
Proof.
  split; [exact history_db_wf|]. split; [vm_compute; reflexivity|].
  apply (history_after_sale "2024-05-03 08:00:00" two_line_cart
           (mkWorld history_db []) _ 5 history_db_wf).
  vm_compute. reflexivity.
Defined.

(** ** The item counts of the history *)

Lemma count_lines_perm l l' :
  Permutation l l' -> count_lines l = count_lines l'.
Proof.
  induction 1; simpl; lia.
Qed.

(** Among sales with distinct ids, one has the id of a line that
    points to a stored sale. *)
Lemma one_sale_per_line (l : list Sale) x :
  NoDup (map s_id l) -> In x (map s_id l) ->
  fold_right (fun s acc => (if x =? s_id s then 1 else 0) + acc) 0 l = 1.
Proof.
  induction l as [|s l IH]; simpl; intros Hn Hin; [tauto|].
  inversion Hn as [|? ? Hnot Hn']; subst.
  destruct (x =? s_id s) eqn:E.
  - apply Z.eqb_eq in E. subst x.
    assert (Z : fold_right (fun s0 acc => (if s_id s =? s_id s0 then 1 else 0) + acc) 0 l = 0).
    { clear IH Hn Hin Hn'. induction l as [|a l IH]; simpl; [reflexivity|].
      destruct (s_id s =? s_id a) eqn:E.
      - apply Z.eqb_eq in E. exfalso. apply Hnot. left. symmetry. exact E.
      - rewrite IH; [reflexivity|]. intros H. apply Hnot. right. exact H. }
    rewrite Z. reflexivity.
  - destruct Hin as [Hin|Hin]; [apply Z.eqb_neq in E; congruence|].
    rewrite (IH Hn' Hin). reflexivity.
Qed.

Lemma count_by_sale (l : list Sale) (ds : list SaleDetail) :
  NoDup (map s_id l) ->
  Forall (fun sd => In (sd_sale_id sd) (map s_id l)) ds ->
  fold_right
    (fun s acc =>
       Z.of_nat (List.length (filter (fun sd => sd_sale_id sd =? s_id s) ds)) + acc)
    0 l
  = Z.of_nat (List.length ds).
Proof.
  intros Hn. induction ds as [|d ds IH]; intros Hall.
  - clear. induction l as [|s l IHl]; simpl; [reflexivity|].
    simpl in IHl. rewrite IHl. reflexivity.
  - inversion Hall as [|? ? Hd Hds]; subst.
    transitivity
      (fold_right (fun s acc => (if sd_sale_id d =? s_id s then 1 else 0) + acc) 0 l
       + fold_right
           (fun s acc =>
              Z.of_nat (List.length (filter (fun sd => sd_sale_id sd =? s_id s) ds)) + acc)
           0 l).
    + clear. induction l as [|s l IHl]; [reflexivity|].
      cbn [fold_right]. rewrite IHl. cbn [filter].
      destruct (sd_sale_id d =? s_id s); cbn [List.length]; lia.
    + rewrite (one_sale_per_line l _ Hn Hd), (IH Hds).
      cbn [List.length]. lia.
Qed.

Lemma StronglySorted_lt_NoDup l : StronglySorted Z.lt l -> NoDup l.
Proof.
  induction 1 as [|x l Hs IH Hx]; constructor; [|exact IH].
  intros Hin. rewrite Forall_forall in Hx. specialize (Hx x Hin). lia.
Qed.

(** X6. On a well-formed store the item counts of list-sales add up
    to the number of rows of [sale_details]: every line is counted, and
    counted for one sale only. *)
Theorem history_counts_every_line (st : Store) :
  wf_store st ->
  count_lines (list_sales st) = Z.of_nat (List.length (sale_details st)).
Proof.
  intros (_ & Ws & Wd).
  unfold list_sales. rewrite <- (count_lines_perm _ _ (order_by_date_desc_perm _)).
  unfold grouped, count_lines, itemCount.
  rewrite <- (count_by_sale (sales st) (sale_details st)).
  - clear Ws. induction (sales st) as [|s l IH]; simpl; [reflexivity|].
    rewrite IH. reflexivity.
  - apply StronglySorted_lt_NoDup. exact Ws.
  - eapply Forall_impl; [|exact Wd]. intros sd Hsd. apply has_sale_In. exact Hsd.
Qed.

Lemma history_counts_every_line_witness :
  wf_store history_db /\
  count_lines (list_sales history_db) = Z.of_nat (List.length (sale_details history_db)).
Proof.
  split; [exact history_db_wf|].
  exact (history_counts_every_line history_db history_db_wf).
Defined.

Lemma join_length ps (rows : list SaleDetail) :
  NoDup (map p_id ps) ->
  Forall (fun sd => existsb (fun p => p_id p =? sd_product_id sd) ps = true) rows ->
  List.length
    (flat_map (fun sd =>
                 map (fun p => mkLineItem (p_name p) (sd_quantity sd) (sd_price sd))
                     (filter (fun p => p_id p =? sd_product_id sd) ps))
              rows)
  = List.length rows.
Proof.
  intros Hn. induction 1 as [|sd rows Hsd _ IH]; simpl; [reflexivity|].
  rewrite length_app, IH.
  destruct (filter_key ps (sd_product_id sd) Hn Hsd) as (p & Hp).
  rewrite Hp. reflexivity.
Qed.

Lemma Forall_filter {A} (P : A -> Prop) (f : A -> bool) l :
  Forall P l -> Forall P (filter f l).
Proof.
  induction 1 as [|x l Hx _ IH]; simpl; [constructor|].
  destruct (f x); [constructor; assumption|exact IH].
Qed.

(** X7. With the integrity of the store and the foreign keys on, the
    two sale queries agree: the item count that list-sales shows for a
    sale is the number of line items that get-sale-detail returns for
    it. *)
Theorem count_matches_detail (st : Store) (saleId : Z) :
  integrity st -> foreign_keys st = true ->
  itemCount st saleId = Z.of_nat (List.length (sale_items st saleId)).
Proof.
  intros ((Wp & _) & _ & Hfk) Hon.
  unfold itemCount, sale_items. rewrite join_length; [reflexivity|exact Wp|].
  apply Forall_filter. exact (Hfk Hon).
Qed.

Lemma history_db_integrity : integrity history_db.
Proof.
  split; [exact history_db_wf|]. split; [repeat constructor|].
  intros _. repeat constructor.
Qed.

Lemma count_matches_detail_witness :
  integrity history_db /\ foreign_keys history_db = true /\
  itemCount history_db 3 = Z.of_nat (List.length (sale_items history_db 3)).
Proof.
  split; [exact history_db_integrity|]. split; [reflexivity|].
  exact (count_matches_detail history_db 3 history_db_integrity eq_refl).
Defined.

Example dangling_count_differs :
  itemCount dangling_db 1 = 2 /\ List.length (sale_items dangling_db 1) = 1%nat.
Proof. vm_compute. split; reflexivity. Qed.

(** ** The order of the cart *)





(** ** Seeding *)

Lemma seed_nonempty st : products st <> [] -> seed st = st.
Proof.
  unfold seed. destruct (products st); [congruence|]. intros _. reflexivity.
Qed.

Lemma seed_empty_products st :
  products st = [] ->
  map p_id (products (seed st))
  = [seq_products st + 1; seq_products st + 2; seq_products st + 3;
     seq_products st + 4; seq_products st + 5; seq_products st + 6].
Proof.
  intros H. unfold seed. rewrite H. cbn [List.length Z.of_nat Z.eqb].
  unfold insertProduct. cbn [products seq_products sales sale_details
                             seq_sales seq_sale_details foreign_keys].
  rewrite H. cbn [app map p_id]. unfold next_rowid. cbn [fold_right].
  repeat (apply f_equal2; [lia|]). reflexivity.
Qed.

(** X9. Seeding runs on an empty catalog only: it leaves a database
    that has products as it is, so seeding again at the next start
    changes nothing; it never touches the sales nor their lines, and it
    keeps a well-formed store well formed, the six products getting
    six distinct ids. *)
Theorem seed_once (st : Store) :
  seed (seed st) = seed st /\
  (products st <> [] -> seed st = st) /\
  sales (seed st) = sales st /\
  sale_details (seed st) = sale_details st /\
  (wf_store st -> wf_store (seed st)).
Proof.
  assert (K : sales (seed st) = sales st /\ sale_details (seed st) = sale_details st).
  { unfold seed. destruct (Z.of_nat (List.length (products st)) =? 0); split; reflexivity. }
  destruct K as [Ks Kd].
  split; [|split; [apply seed_nonempty|split; [exact Ks|split; [exact Kd|]]]].
  - destruct (products st) eqn:E.
    + apply seed_nonempty. intros H.
      apply (f_equal (map p_id)) in H. rewrite (seed_empty_products st E) in H.
      discriminate.
    + rewrite !(seed_nonempty st) by (rewrite E; discriminate). reflexivity.
  - intros (Wp & Ws & Wd). unfold wf_store, has_sale. rewrite Ks, Kd.
    split; [|split; assumption].
    destruct (products st) eqn:E.
    + rewrite (seed_empty_products st E). apply StronglySorted_lt_NoDup.
      repeat (constructor; [|repeat (constructor; [lia|]); constructor]). constructor.
    + rewrite (seed_nonempty st); [rewrite E; exact Wp|]. rewrite E. discriminate.
Qed.

Lemma seed_once_witness :
  seed (seed history_db) = seed history_db /\
  (products history_db <> [] -> seed history_db = history_db) /\
  sales (seed history_db) = sales history_db /\
  sale_details (seed history_db) = sale_details history_db /\
  (wf_store history_db -> wf_store (seed history_db)).
Proof. exact (seed_once history_db). Defined.

(** * Properties of the client *)

(** ** The cart *)

Lemma find_none_absent (pid : Z) (cart : list CartItem) :
  find (fun item => c_id item =? pid) cart = None -> ~ In pid (map c_id cart).
Proof.
  induction cart as [|a cart IH]; simpl; intros H; [tauto|].
  destruct (c_id a =? pid) eqn:E; [discriminate|].
  apply Z.eqb_neq in E. intros [Ha|Hin]; [congruence|exact (IH H Hin)].
Qed.

Lemma absent_find_none (pid : Z) (cart : list CartItem) :
  ~ In pid (map c_id cart) -> find (fun item => c_id item =? pid) cart = None.
Proof.
  induction cart as [|a cart IH]; simpl; intros H; [reflexivity|].
  destruct (c_id a =? pid) eqn:E.
  - apply Z.eqb_eq in E. exfalso. apply H. left. exact E.
  - apply IH. intros Hin. apply H. right. exact Hin.
Qed.

Lemma NoDup_snoc (l : list Z) x : NoDup l -> ~ In x l -> NoDup (l ++ [x]).
Proof.
  intros Hn Hx. induction Hn as [|a l Ha Hn IH]; simpl.
  - constructor; [tauto|constructor].
  - constructor.
    + rewrite in_app_iff. simpl. intros [H|[H|[]]]; [exact (Ha H)|].
      apply Hx. left. symmetry. exact H.
    + apply IH. intros H. apply Hx. right. exact H.
Qed.

Lemma map_ids_requantified (f : CartItem -> Z) (g : CartItem -> bool) cart :
  map c_id (map (fun item => if g item then with_quantity item (f item) else item) cart)
  = map c_id cart.
Proof.
  rewrite map_map. apply map_ext. intros item. destruct (g item); reflexivity.
Qed.

(** X10. The cart keeps its shape under every operation of the
    client: with one item per product and quantities of at least 1
    before, it has one item per product and quantities of at least 1
    after adding a product, changing a quantity by any amount,
    removing a product and clearing. *)
Theorem cart_operations_keep_shape (cart : list CartItem) (product : Product)
    (productId delta : Z) (confirmed : bool) :
  cart_ok cart ->
  cart_ok (addToCart product cart) /\
  cart_ok (updateQuantity productId delta cart) /\
  cart_ok (removeFromCart productId cart) /\
  cart_ok (clearCart confirmed cart).
Proof.
  intros [Hn Hq]. unfold cart_ok. repeat split.
  - unfold addToCart.
    destruct (find (fun item => c_id item =? p_id product) cart) eqn:E.
    + rewrite map_ids_requantified. exact Hn.
    + rewrite map_app. simpl. apply NoDup_snoc; [exact Hn|].
      apply find_none_absent. exact E.
  - unfold addToCart.
    destruct (find (fun item => c_id item =? p_id product) cart).
    + rewrite Forall_map. eapply Forall_impl; [|exact Hq].
      intros item Hi. simpl in Hi. destruct (c_id item =? p_id product); simpl; lia.
    + apply Forall_app. split; [exact Hq|]. repeat constructor. simpl. lia.
  - unfold updateQuantity. rewrite map_ids_requantified. exact Hn.
  - unfold updateQuantity. rewrite Forall_map. eapply Forall_impl; [|exact Hq].
    intros item Hi. simpl in Hi. destruct (c_id item =? productId); simpl; lia.
  - unfold removeFromCart. clear Hq.
    induction cart as [|a cart IH]; simpl; [constructor|].
    inversion Hn as [|? ? Ha Hn']; subst.
    destruct (negb (c_id a =? productId)); [|apply IH; exact Hn'].
    simpl. constructor; [|apply IH; exact Hn'].
    intros Hin. apply Ha. apply in_map_iff in Hin. destruct Hin as (b & Hb & Hin).
    apply filter_In in Hin. rewrite <- Hb. apply in_map. tauto.
  - unfold removeFromCart. apply Forall_filter. exact Hq.
  - destruct confirmed; [constructor|exact Hn].
  - destruct confirmed; [constructor|exact Hq].
Qed.

Lemma seeded_cart_ok : cart_ok seeded_cart.
Proof.
  split.
  - repeat (constructor; [simpl; intuition discriminate|]). constructor.
  - repeat constructor; simpl; lia.
Qed.

Lemma cart_operations_keep_shape_witness :
  cart_ok seeded_cart /\
  cart_ok (addToCart (mkProduct 5 (lit "Terminal POS All-in-One") 550 15 None) seeded_cart) /\
  cart_ok (updateQuantity 6 (-7) seeded_cart) /\
  cart_ok (removeFromCart 6 seeded_cart) /\
  cart_ok (clearCart true seeded_cart).
Proof.
  split; [exact seeded_cart_ok|].
  exact (cart_operations_keep_shape seeded_cart
           (mkProduct 5 (lit "Terminal POS All-in-One") 550 15 None) 6 (-7) true
           seeded_cart_ok).
Defined.








(** X12. Removing a product undoes adding it: for a product that was
    not in the cart, add then remove gives the cart back; and after a
    removal no item of that product is left. *)
Theorem remove_undoes_add (cart : list CartItem) (product : Product) (productId : Z) :
  ~ In (p_id product) (map c_id cart) ->
  removeFromCart (p_id product) (addToCart product cart) = cart /\
  ~ In productId (map c_id (removeFromCart productId cart)).
Proof.
  intros H. split.
  - unfold addToCart, removeFromCart. rewrite (absent_find_none _ _ H).
    rewrite filter_app. simpl. rewrite Z.eqb_refl. simpl. rewrite app_nil_r.
    apply filter_all. apply Forall_forall. intros item Hin.
    apply negb_true_iff, Z.eqb_neq. intros E. apply H. rewrite <- E.
    apply in_map. exact Hin.
  - unfold removeFromCart. intros Hin. apply in_map_iff in Hin.
    destruct Hin as (item & E & Hin). apply filter_In in Hin.
    destruct Hin as [_ Hne]. apply negb_true_iff, Z.eqb_neq in Hne. congruence.
Qed.

Lemma remove_undoes_add_witness :
  ~ In 5 (map c_id seeded_cart) /\
  removeFromCart 5 (addToCart (mkProduct 5 (lit "Terminal POS All-in-One") 550 15 None)
                              seeded_cart)
  = seeded_cart /\
  ~ In 1 (map c_id (removeFromCart 1 seeded_cart)).
Proof.
  assert (H : ~ In 5 (map c_id seeded_cart)) by (simpl; intuition discriminate).
  split; [exact H|].
  exact (remove_undoes_add seeded_cart
           (mkProduct 5 (lit "Terminal POS All-in-One") 550 15 None) 1 H).
Defined.




(** ** Paying *)

Lemma fold_left_map {A B C} (f : A -> B -> A) (g : C -> B) l a :
  fold_left f (map g l) a = fold_left (fun a x => f a (g x)) l a.
Proof.
  revert a. induction l as [|x l IH]; intros a; simpl; [reflexivity|]. apply IH.
Qed.

(** The total that the client sends is the sum of the lines it sends. *)
Lemma total_consistent cart :
  sum_lines (cart_lines (map sale_item cart)) = Client.total cart.
Proof.
  unfold sum_lines, cart_lines, Client.total. rewrite map_map, fold_left_map. reflexivity.
Qed.

Lemma cart_lines_sale_items cart :
  cart_lines (map sale_item cart) = detail_lines (map line_item cart).
Proof.
  unfold cart_lines, detail_lines. rewrite !map_map. reflexivity.
Qed.

Lemma key_determines_row ps (p q : Product) :
  NoDup (map p_id ps) -> In p ps -> In q ps -> p_id p = p_id q -> p = q.
Proof.
  induction ps as [|a ps IH]; simpl; intros Hn Hp Hq E; [tauto|].
  inversion Hn as [|? ? Ha Hn']; subst.
  destruct Hp as [Hp|Hp], Hq as [Hq|Hq].
  - congruence.
  - subst a. exfalso. apply Ha. rewrite E. apply in_map. exact Hq.
  - subst a. exfalso. apply Ha. rewrite <- E. apply in_map. exact Hp.
  - apply IH; assumption.
Qed.

(** The join of the lines just written for a cart that was filled from
    the catalog: the line items of the cart, names included. *)
Lemma join_cart ps sid items cart : forall rows,
  NoDup (map p_id ps) ->
  Forall (fun item => exists p, In p ps /\ p_id p = c_id item /\ p_name p = c_name item) cart ->
  map line_of rows = map (item_line sid) (map sale_item cart) ->
  flat_map (fun sd =>
              map (fun p => mkLineItem (p_name p) (sd_quantity sd) (sd_price sd))
                  (filter (fun p => p_id p =? sd_product_id sd) (decrement_all items ps)))
           rows
  = map line_item cart.
Proof.
  induction cart as [|item cart IH]; intros [|r rows] Hn Hin H; simpl in H;
    try discriminate; [reflexivity|].
  inversion Hin as [|? ? (p & Hp & Eid & Ename) Hcart]; subst.
  injection H as _ Epid Eq Eprice Htl.
  simpl. rewrite (IH rows Hn Hcart Htl), join_decrement_all.
  destruct (filter_key ps (sd_product_id r) Hn) as (q & Hq).
  { apply existsb_exists. exists p. split; [exact Hp|]. apply Z.eqb_eq. congruence. }
  rewrite Hq. simpl. f_equal.
  assert (Hqin : In q (filter (fun p0 => p_id p0 =? sd_product_id r) ps)).
  { rewrite Hq. left. reflexivity. }
  apply filter_In in Hqin. destruct Hqin as [Hqin Eq'].
  apply Z.eqb_eq in Eq'.
  rewrite (key_determines_row ps q p Hn Hqin Hp ltac:(congruence)).
  unfold line_item. rewrite Ename, Eq, Eprice. reflexivity.
Qed.

Lemma sale_items_of_cart now cart total_sent sid st st' :
  wf_store st -> from_catalog st cart ->
  sid = next_rowid (seq_sales st) (map s_id (sales st)) ->
  sale_effects now (mkSaleRequest total_sent (map sale_item cart)) sid st st' ->
  sale_items st' sid = map line_item cart.
Proof.
  intros (Wp & Ws & Wd) Hcat Hsid (Hs & (rows & Hd & Hl) & Hp).
  unfold sale_items. rewrite Hd, filter_app.
  rewrite (filter_none _ (sale_details st)), (filter_all _ rows); simpl.
  - simpl in Hp. rewrite Hp. apply join_cart with (sid := sid); assumption.
  - eapply Forall_impl; [|exact (rows_sale_id _ _ _ Hl)].
    intros sd Hsd. simpl in Hsd. apply Z.eqb_eq. exact Hsd.
  - eapply Forall_impl; [|exact Wd]. intros sd Hsd. simpl in Hsd.
    apply Z.eqb_neq. apply has_sale_In in Hsd.
    pose proof (next_rowid_above (seq_sales st) _ _ Hsd). lia.
Qed.

Lemma from_catalog_in_catalog st cart :
  from_catalog st cart -> in_catalog st (map sale_item cart).
Proof.
  unfold from_catalog, in_catalog. intros H. rewrite Forall_map.
  eapply Forall_impl; [|exact H]. intros item (p & Hp & E & _). simpl.
  apply existsb_exists. exists p. split; [exact Hp|]. apply Z.eqb_eq. exact E.
Qed.

(** What [handlePayment] does on a cart that is not empty. *)
Lemma handlePayment_steps N now date_text open_error c w :
  cl_cart c <> [] ->
  handlePayment N now date_text open_error c w
  = match post_sales now (mkSaleRequest (Client.total (cl_cart c))
                                         (map sale_item (cl_cart c))) w with
    | (res, w1) =>
        match payload res with
        | BSaleCreated saleId =>
            let w2 := snd (post_print N date_text open_error
                             (mkPrintRequest saleId (Client.total (cl_cart c))
                                             (map line_item (cl_cart c))) w1) in
            (mkState (products (db w2)) [] (cl_sales c), w2,
             Some (lit "Venta completada con " ++ [233%N] ++ lit "xito. Ticket #"
                   ++ toString saleId))
        | _ => (c, w1, None)
        end
    end.
Proof.
  intros H. unfold handlePayment.
  destruct (cl_cart c) as [|item cart] eqn:E; [congruence|].
  cbn [List.length]. rewrite Nat2Z.inj_succ.
  destruct (Z.succ (Z.of_nat (List.length cart)) =? 0) eqn:Z0; [apply Z.eqb_eq in Z0; lia|].
  destruct (post_sales now _ w) as [res w1].
  destruct (payload res); reflexivity.
Qed.

(** The outcome of a payment for a cart filled from the catalog. *)
Lemma payment_outcome (Number_toString : float -> jsstring) (now : string)
    (date_text : jsstring) (open_error : option jsstring) (c : State) (w : World) :
  cl_cart c <> [] ->
  wf_store (db w) ->
  from_catalog (db w) (cl_cart c) ->
  exists sid c' w',
    handlePayment Number_toString now date_text open_error c w
    = (c', w',
       Some (lit "Venta completada con " ++ [233%N] ++ lit "xito. Ticket #" ++ toString sid)) /\
    cl_cart c' = [] /\
    cl_products c' = products (db w') /\
    get_sale sid w'
    = (json (BSaleDetail (mkSale sid (Client.total (cl_cart c)) now)
                         (map line_item (cl_cart c))), w') /\
    sum_lines (detail_lines (map line_item (cl_cart c))) = Client.total (cl_cart c) /\
    printed w'
    = printed w ++
      match open_error with
      | None => receipt Number_toString date_text
                  (mkPrintRequest sid (Client.total (cl_cart c)) (map line_item (cl_cart c)))
      | Some _ => []
      end.
Proof.
  intros Hne W Hcat.
  set (req := mkSaleRequest (Client.total (cl_cart c)) (map sale_item (cl_cart c))).
  destruct (post_sales_succeeds now req w (or_intror (from_catalog_in_catalog _ _ Hcat)))
    as (sid & st' & E & Hsid & He).
  pose proof (sale_items_of_cart _ _ _ _ _ _ W Hcat Hsid He) as Hitems.
  rewrite (handlePayment_steps _ _ _ _ _ _ Hne). fold req. rewrite E.
  cbn [payload json].
  exists sid. eexists. eexists. split; [reflexivity|].
  split; [reflexivity|]. split; [reflexivity|].
  assert (Hdb : db (snd (post_print Number_toString date_text open_error
                           (mkPrintRequest sid (Client.total (cl_cart c))
                                           (map line_item (cl_cart c)))
                           (mkWorld st' (printed w)))) = st').
  { destruct open_error; reflexivity. }
  split; [|split].
  - unfold get_sale. rewrite Hdb, Hitems.
    destruct He as (Hs & _). rewrite Hs, find_new_sale; [reflexivity| |reflexivity].
    intros x Hx. rewrite Hsid. apply next_rowid_above. exact Hx.
  - rewrite <- cart_lines_sale_items. apply total_consistent.
  - destruct open_error; simpl; [rewrite app_nil_r|]; reflexivity.
Qed.

(** X14. Paying for a cart filled from the catalog commits the sale
    and empties the cart, whether or not the printer can be opened:
    the stored total is the cart's total and equals the sum of the
    stored lines, the stored line items are those of the cart, the
    product list of the client is the one of the store after the sale,
    and the printer receives the receipt of the cart when it opens and
    nothing when it does not. *)
Theorem payment_commits_cart (Number_toString : float -> jsstring) (now : string)
    (date_text : jsstring) (open_error : option jsstring) (c : State) (w : World) :
  cl_cart c <> [] ->
  wf_store (db w) ->
  from_catalog (db w) (cl_cart c) ->
  exists sid c' w',
    handlePayment Number_toString now date_text open_error c w
    = (c', w',
       Some (lit "Venta completada con " ++ [233%N] ++ lit "xito. Ticket #" ++ toString sid)) /\
    cl_cart c' = [] /\
    cl_products c' = products (db w') /\
    get_sale sid w'
    = (json (BSaleDetail (mkSale sid (Client.total (cl_cart c)) now)
                         (map line_item (cl_cart c))), w') /\
    sum_lines (detail_lines (map line_item (cl_cart c))) = Client.total (cl_cart c) /\
    printed w'
    = printed w ++
      match open_error with
      | None => receipt Number_toString date_text
                  (mkPrintRequest sid (Client.total (cl_cart c)) (map line_item (cl_cart c)))
      | Some _ => []
      end.
Proof.
  intros Hne W Hcat.
  exact (payment_outcome Number_toString now date_text open_error c w Hne W Hcat).
Qed.

Lemma seeded_cart_from_catalog : from_catalog (seed empty_db) seeded_cart.
Proof.
  repeat constructor.
  - eexists. split; [left; reflexivity|]. split; reflexivity.
  - eexists. split; [do 5 right; left; reflexivity|]. split; reflexivity.
Qed.

Lemma payment_commits_cart_witness :
  cl_cart seeded_client <> [] /\
  wf_store (seed empty_db) /\
  from_catalog (seed empty_db) (cl_cart seeded_client) /\
  exists sid c' w',
    handlePayment (fun _ => lit "NaN") "2024-05-01 10:00:00" (lit "1/5/2024, 10:00:00")
                  (Some (lit "ECONNREFUSED")) seeded_client (mkWorld (seed empty_db) [])
    = (c', w',
       Some (lit "Venta completada con " ++ [233%N] ++ lit "xito. Ticket #" ++ toString sid)) /\
    cl_cart c' = [] /\
    cl_products c' = products (db w') /\
    get_sale sid w'
    = (json (BSaleDetail (mkSale sid (Client.total (cl_cart seeded_client))
                                 "2024-05-01 10:00:00")
                         (map line_item (cl_cart seeded_client))), w') /\
    sum_lines (detail_lines (map line_item (cl_cart seeded_client)))
    = Client.total (cl_cart seeded_client) /\
    printed w' = [] ++ [].
Proof.
  assert (H : cl_cart seeded_client <> []) by discriminate.
  split; [exact H|]. split; [exact seed_wf|]. split; [exact seeded_cart_from_catalog|].
  exact (payment_commits_cart (fun _ => lit "NaN") "2024-05-01 10:00:00"
           (lit "1/5/2024, 10:00:00") (Some (lit "ECONNREFUSED")) seeded_client
           (mkWorld (seed empty_db) []) H seed_wf seeded_cart_from_catalog).
Defined.

(** X15. A payment that cannot be made changes nothing: on an empty
    cart no request is sent, and when the sale is refused (foreign keys
    on, an item of a product that is no longer in the catalog) the cart
    stays as it is, nothing is printed and no alert is raised; the
    store and the printer are as before in both cases. *)
Theorem payment_refused_keeps_cart (Number_toString : float -> jsstring) (now : string)
    (date_text : jsstring) (open_error : option jsstring) (c : State) (w : World) :
  cl_cart c = [] \/
  (foreign_keys (db w) = true /\ unknown_product (db w) (map sale_item (cl_cart c))) ->
  handlePayment Number_toString now date_text open_error c w = (c, w, None).
Proof.
  intros [H|[Hfk Hex]].
  - unfold handlePayment. rewrite H. reflexivity.
  - destruct (cl_cart c) as [|item cart] eqn:E; [inversion Hex|].
    rewrite handlePayment_steps by (rewrite E; discriminate). rewrite E.
    rewrite (post_sales_fails now (mkSaleRequest (Client.total (item :: cart))
                                                 (map sale_item (item :: cart)))
                              w Hfk Hex).
    reflexivity.
Qed.

Lemma payment_refused_keeps_cart_witness :
  (cl_cart (mkState [] [mkCartItem 99 (lit "Cable") 4 10 None 1] []) = [] \/
   (foreign_keys (seed empty_db) = true /\
    unknown_product (seed empty_db)
      (map sale_item (cl_cart (mkState [] [mkCartItem 99 (lit "Cable") 4 10 None 1] []))))) /\
  handlePayment (fun _ => lit "NaN") "2024-05-01 10:00:00" (lit "1/5/2024, 10:00:00") None
                (mkState [] [mkCartItem 99 (lit "Cable") 4 10 None 1] [])
                (mkWorld (seed empty_db) [])
  = (mkState [] [mkCartItem 99 (lit "Cable") 4 10 None 1] [],
     mkWorld (seed empty_db) [], None).
Proof.
  assert (H : cl_cart (mkState [] [mkCartItem 99 (lit "Cable") 4 10 None 1] []) = [] \/
              (foreign_keys (seed empty_db) = true /\
               unknown_product (seed empty_db)
                 (map sale_item
                    (cl_cart (mkState [] [mkCartItem 99 (lit "Cable") 4 10 None 1] []))))).
  { right. split; [reflexivity|]. constructor 1. reflexivity. }
  split; [exact H|].
  exact (payment_refused_keeps_cart (fun _ => lit "NaN") "2024-05-01 10:00:00"
           (lit "1/5/2024, 10:00:00") None
           (mkState [] [mkCartItem 99 (lit "Cable") 4 10 None 1] [])
           (mkWorld (seed empty_db) []) H).
Defined.

(** ** Reprinting *)



(** X17. The reprint of a sale that was just paid is the ticket that
    was printed at the sale: for a cart filled from the catalog and a
    printer that opens, the directives of a reprint of the new sale are,
    for the same date text, the directives that the payment sent. *)
Theorem reprint_repeats_ticket (Number_toString : float -> jsstring) (now : string)
    (date_text : jsstring) (c : State) (w : World) :
  cl_cart c <> [] ->
  wf_store (db w) ->
  from_catalog (db w) (cl_cart c) ->
  exists sid c' w' alert ticket,
    handlePayment Number_toString now date_text None c w = (c', w', alert) /\
    printed w' = printed w ++ ticket /\
    handleReprint Number_toString true date_text None sid w'
    = (mkWorld (db w') (printed w' ++ ticket),
       Some (lit "Ticket #" ++ toString sid ++ lit " enviado a imprimir")).
Proof.
  intros Hne W Hcat.
  destruct (payment_outcome Number_toString now date_text None c w Hne W Hcat)
    as (sid & c' & w' & Hpay & _ & _ & Hget & _ & Hprinted).
  exists sid, c', w'. eexists. eexists.
  split; [exact Hpay|]. split; [exact Hprinted|].
  unfold handleReprint. rewrite Hget. reflexivity.
Qed.

Lemma reprint_repeats_ticket_witness :
  cl_cart seeded_client <> [] /\
  wf_store (seed empty_db) /\
  from_catalog (seed empty_db) (cl_cart seeded_client) /\
  exists sid c' w' alert ticket,
    handlePayment (fun _ => lit "NaN") "2024-05-01 10:00:00" (lit "1/5/2024, 10:00:00")
                  None seeded_client (mkWorld (seed empty_db) [])
    = (c', w', alert) /\
    printed w' = [] ++ ticket /\
    handleReprint (fun _ => lit "NaN") true (lit "1/5/2024, 10:00:00") None sid w'
    = (mkWorld (db w') (printed w' ++ ticket),
       Some (lit "Ticket #" ++ toString sid ++ lit " enviado a imprimir")).
Proof.
  assert (H : cl_cart seeded_client <> []) by discriminate.
  split; [exact H|]. split; [exact seed_wf|]. split; [exact seeded_cart_from_catalog|].
  exact (reprint_repeats_ticket (fun _ => lit "NaN") "2024-05-01 10:00:00"
           (lit "1/5/2024, 10:00:00") seeded_client (mkWorld (seed empty_db) [])
           H seed_wf seeded_cart_from_catalog).
Defined.

(** * Further properties of the receipt *)











Example reprint_42_total_line :
  nth_error (receipt (fun _ => lit "NaN") (lit "1/5/2024, 10:00:00") reprint_42) 22
  = Some (Text (lit "TOTAL: $248.50")).
Proof. vm_compute. reflexivity. Qed.

Lemma receipt_row_not_drawer N item pin : receipt_row N item <> Cashdraw pin.
Proof. unfold receipt_row. discriminate. Qed.

(** X20. The shape of every receipt: the sixteen directives of the
    header, one table row per item and the thirteen of the footer, so
    that the paper is cut and the connection closed last, whatever the
    items; no receipt pulses the cash drawer; and a product name of at
    most 15 code units is printed whole, a longer one as 15 units. *)
Theorem receipt_shape (Number_toString : float -> jsstring)
    (date_text : jsstring) (req : PrintRequest) :
  let out := receipt Number_toString date_text req in
  let n := List.length (pr_items req) in
  List.length out = (29 + n)%nat /\
  nth_error out (27 + n) = Some Cut /\
  nth_error out (28 + n) = Some Close /\
  (forall pin, ~ In (Cashdraw pin) out) /\
  (forall (i : nat) item,
     nth_error (pr_items req) i = Some item ->
     exists quantity name amount,
       nth_error out (16 + i) = Some (TableCustom [quantity; name; amount]) /\
       List.length (cell_text name) = Nat.min 15 (List.length (li_name item)) /\
       ((List.length (li_name item) <= 15)%nat -> cell_text name = li_name item)).
Proof.
  intros out n. unfold out, n. clear out n.
  assert (Hfoot : forall k,
            nth_error (receipt Number_toString date_text req)
                      (16 + List.length (pr_items req) + k)
            = nth_error (receipt_footer Number_toString (pr_total req)) k).
  { intros k. unfold receipt. rewrite app_assoc, nth_error_app2;
      rewrite length_app, length_map; cbn [receipt_header List.length]; [|lia].
    f_equal. lia. }
  split; [|split; [|split; [|split]]].
  - unfold receipt. rewrite !length_app, length_map. simpl. lia.
  - replace (27 + List.length (pr_items req))%nat
      with (16 + List.length (pr_items req) + 11)%nat by lia.
    rewrite Hfoot. reflexivity.
  - replace (28 + List.length (pr_items req))%nat
      with (16 + List.length (pr_items req) + 12)%nat by lia.
    rewrite Hfoot. reflexivity.
  - intros pin Hin. unfold receipt in Hin.
    apply in_app_or in Hin. destruct Hin as [Hin|Hin].
    + simpl in Hin. repeat (destruct Hin as [Hin|Hin]; [discriminate|]). exact Hin.
    + apply in_app_or in Hin. destruct Hin as [Hin|Hin].
      * apply in_map_iff in Hin. destruct Hin as (item & E & _).
        exact (receipt_row_not_drawer _ _ _ E).
      * simpl in Hin. repeat (destruct Hin as [Hin|Hin]; [discriminate|]). exact Hin.
  - intros i item H. rewrite (receipt_item_row _ _ _ _ _ H).
    unfold receipt_row. do 3 eexists. split; [reflexivity|].
    cbn [cell_text]. rewrite (substring_prefix _ 15). split.
    + apply length_firstn.
    + intros L. apply firstn_all2. exact L.
Qed.

Lemma receipt_shape_witness :
  let out := receipt (fun _ => lit "NaN") (lit "1/5/2024, 10:00:00") reprint_42 in
  let n := List.length (pr_items reprint_42) in
  List.length out = (29 + n)%nat /\
  nth_error out (27 + n) = Some Cut /\
  nth_error out (28 + n) = Some Close /\
  (forall pin, ~ In (Cashdraw pin) out) /\
  (forall (i : nat) item,
     nth_error (pr_items reprint_42) i = Some item ->
     exists quantity name amount,
       nth_error out (16 + i) = Some (TableCustom [quantity; name; amount]) /\
       List.length (cell_text name) = Nat.min 15 (List.length (li_name item)) /\
       ((List.length (li_name item) <= 15)%nat -> cell_text name = li_name item)).
Proof.
  exact (receipt_shape (fun _ => lit "NaN") (lit "1/5/2024, 10:00:00") reprint_42).
Defined.

(** * Stock and ledger *)






Example books_of_the_seed :
  books (db (serve [("2024-05-01 10:00:00"%string, two_line_cart);
                    ("2024-05-01 10:05:00"%string, broken_cart);
                    ("2024-05-01 10:09:00"%string, oversold_cart)]
                   (mkWorld (seed empty_db) [])))
  = products (seed empty_db).
Proof. vm_compute. reflexivity. Qed.
